(** * Verification of the MJAI log HTML generator

    A shallow embedding of [view-logs/generate_mjai_html.py]: the archive
    reader [extract_mjai_log], the report generator [generate_html_file], the
    batch coordinator [process_directory] and the entry point [main], over an
    explicit model of the file system and of standard output.

    Python [str] values are lists of characters; a character is an [ascii]
    (code points 0-255).  Python integers are [Z]; [str.find] returns [-1]
    when nothing is found, and slices follow Python's rules for negative
    bounds. *)

From Stdlib Require Import ZArith Ascii String.
From stdpp Require Import gmap strings list fin_maps pretty.

Local Open Scope Z_scope.

(** ** Python strings and sequences *)

Abbreviation str := (list ascii).

(** A string literal of the source. *)
Definition lit (s : string) : str := list_ascii_of_string s.

(** Line terminators. *)
Definition NL : ascii := ascii_of_nat 10.
Definition CR : ascii := ascii_of_nat 13.

Module Py.

(** [len(xs)] *)
Definition len {A} (xs : list A) : Z := Z.of_nat (length xs).

(** [xs[:k]] *)
Definition slice_to {A} (xs : list A) (k : Z) : list A :=
  if k <? 0 then take (Z.to_nat (Z.max 0 (len xs + k))) xs
  else take (Z.to_nat k) xs.

(** [xs[k:]] *)
Definition slice_from {A} (xs : list A) (k : Z) : list A :=
  if k <? 0 then drop (Z.to_nat (Z.max 0 (len xs + k))) xs
  else drop (Z.to_nat k) xs.

(** [s.startswith(pat)] *)
Fixpoint startswith (s pat : str) : bool :=
  match pat, s with
  | [], _ => true
  | _ :: _, [] => false
  | p :: pat', c :: s' => Ascii.eqb c p && startswith s' pat'
  end.

(** [s.endswith(suf)] *)
Definition endswith (s suf : str) : bool :=
  (length suf <=? length s)%nat
  && startswith (drop (length s - length suf) s) suf.

(** [s.find(pat)]: the lowest index at which [pat] occurs, or [-1]. *)
Fixpoint find (s pat : str) : Z :=
  if startswith s pat then 0
  else match s with
       | [] => -1
       | _ :: s' => let r := find s' pat in if r =? -1 then -1 else r + 1
       end.

(** [s.rfind(pat)]: the highest index at which [pat] occurs, or [-1]. *)
Fixpoint rfind (s pat : str) : Z :=
  match s with
  | [] => if startswith s pat then 0 else -1
  | _ :: s' =>
      let r := rfind s' pat in
      if r =? -1 then (if startswith s pat then 0 else -1) else r + 1
  end.

(** [s.replace(old, new)] for a non-empty [old]: occurrences are replaced
    from left to right and do not overlap.  [skip] counts the characters of
    an occurrence that was just replaced and are still to be passed over. *)
Fixpoint replace_from (skip : nat) (s old new : str) : str :=
  match s with
  | [] => []
  | c :: s' =>
      match skip with
      | S k => replace_from k s' old new
      | O =>
          if startswith s old
          then new ++ replace_from (length old - 1) s' old new
          else c :: replace_from 0 s' old new
      end
  end.

Definition replace (s old new : str) : str := replace_from 0 s old new.

(** The characters below 256 that [str.isspace] accepts. *)
Definition isspace (c : ascii) : bool :=
  let n := nat_of_ascii c in
  ((9 <=? n) && (n <=? 13) || (28 <=? n) && (n <=? 32)
   || (n =? 133) || (n =? 160))%nat.

Fixpoint lstrip (s : str) : str :=
  match s with
  | c :: s' => if isspace c then lstrip s' else s
  | [] => []
  end.

Definition rstrip (s : str) : str := reverse (lstrip (reverse s)).

(** [s.strip()] *)
Definition strip (s : str) : str := rstrip (lstrip s).

(** [s.rstrip('/')] *)
Fixpoint lstrip_char (c : ascii) (s : str) : str :=
  match s with
  | x :: s' => if Ascii.eqb x c then lstrip_char c s' else s
  | [] => []
  end.

Definition rstrip_char (c : ascii) (s : str) : str :=
  reverse (lstrip_char c (reverse s)).

(** [sep.join(parts)] *)
Fixpoint join (sep : str) (parts : list str) : str :=
  match parts with
  | [] => []
  | [p] => p
  | p :: rest => p ++ sep ++ join sep rest
  end.

(** Truthiness of a string or of a list: it is not empty. *)
Definition truthy {A} (xs : list A) : bool :=
  match xs with [] => false | _ => true end.

(** [str(n)] for a non-negative count. *)
Definition str_of_nat (n : nat) : str := lit (pretty n).

End Py.

(** ** POSIX path functions ([posixpath]) *)

Module OsPath.

Definition sep : ascii := "/"%char.

(** [os.path.basename(p)]: [p[p.rfind('/') + 1:]] *)
Definition basename (p : str) : str :=
  Py.slice_from p (Py.rfind p [sep] + 1).

(** [os.path.dirname(p)]: the head [p[:p.rfind('/') + 1]], without its
    trailing slashes unless it consists of slashes only. *)
Definition dirname (p : str) : str :=
  let head := Py.slice_to p (Py.rfind p [sep] + 1) in
  if Py.truthy head && negb (bool_decide (head = replicate (length head) sep))
  then Py.rstrip_char sep head
  else head.

(** [os.path.join(a, b)] *)
Definition join (a b : str) : str :=
  if Py.startswith b [sep] then b
  else if negb (Py.truthy a) || Py.endswith a [sep] then a ++ b
  else a ++ [sep] ++ b.

End OsPath.

(** ** The file system and standard output *)

(** The exceptions the program can see. *)
Inductive exn :=
| FileNotFoundError (p : str)
| IsADirectoryError (p : str)
| PermissionError (p : str)
| BadGzipFile
| UnicodeDecodeError
| JSONDecodeError
| OtherError (msg : str).

#[global] Instance exn_eq_dec : EqDecision exn.
Proof. solve_decision. Defined.

(** [str(e)] *)
Definition str_exn (e : exn) : str :=
  match e with
  | FileNotFoundError p => lit "[Errno 2] No such file or directory: '" ++ p ++ lit "'"
  | IsADirectoryError p => lit "[Errno 21] Is a directory: '" ++ p ++ lit "'"
  | PermissionError p => lit "[Errno 13] Permission denied: '" ++ p ++ lit "'"
  | BadGzipFile => lit "Not a gzipped file"
  | UnicodeDecodeError => lit "'utf-8' codec can't decode byte"
  | JSONDecodeError => lit "Expecting value"
  | OtherError msg => msg
  end.

(** What a regular file holds, as far as the program can tell: text encoded
    in UTF-8; a gzip stream of text encoded in UTF-8; a gzip stream that is
    damaged or whose bytes are not UTF-8 from some point on, which yields
    some text and then raises; or anything else.  A gzip stream starts with
    the bytes 1f 8b, which is not valid UTF-8, so no file is both readable as
    text and as a gzip stream. *)
Inductive content :=
| Utf8Text (text : str)
| GzipText (text : str)
| GzipBroken (text : str) (e : exn)
| Opaque.

#[global] Instance content_eq_dec : EqDecision content.
Proof. solve_decision. Defined.

(** [files] are the regular files and [dirs] the directories; opening a path
    of [unwritable] for writing raises, and so does removing a path of
    [unremovable].  A file is named by the string of its path: the model has
    no symbolic or hard links, so two different strings name two different
    files, and what is written at one path is never seen at another. *)
Record World := mkWorld {
  files : gmap str content;
  dirs : gset str;
  unwritable : gset str;
  unremovable : gset str
}.

(** Text mode with universal newlines: [\r\n] and [\r] are read as [\n]. *)
Fixpoint universal_newlines (s : str) : str :=
  match s with
  | [] => []
  | c :: s' =>
      if Ascii.eqb c CR then
        match s' with
        | d :: s'' => if Ascii.eqb d NL then NL :: universal_newlines s''
                      else NL :: universal_newlines s'
        | [] => [NL]
        end
      else c :: universal_newlines s'
  end.

(** Iterating over a text file: each line keeps its newline; the last line
    may have none. *)
Fixpoint lines_from (cur : str) (s : str) : list str :=
  match s with
  | [] => match cur with [] => [] | _ => [reverse cur] end
  | c :: s' =>
      if Ascii.eqb c NL then reverse (c :: cur) :: lines_from [] s'
      else lines_from (c :: cur) s'
  end.

Definition readlines (s : str) : list str := lines_from [] s.

Definition missing (w : World) (p : str) : exn :=
  if bool_decide (p ∈ dirs w) then IsADirectoryError p else FileNotFoundError p.

(** [gzip.open(p, 'rt', encoding='utf-8')] and the iteration over it: either
    opening raises, or the stream yields lines and then ends, normally
    ([None]) or with an exception. *)
Definition gzip_open (w : World) (p : str) : exn + (list str * option exn) :=
  match files w !! p with
  | None => inl (missing w p)
  | Some (GzipText t) => inr (readlines (universal_newlines t), None)
  | Some (GzipBroken t e) => inr (readlines (universal_newlines t), Some e)
  | Some (Utf8Text _) => inr ([], Some BadGzipFile)
  | Some Opaque => inr ([], Some BadGzipFile)
  end.

(** [open(p, 'r', encoding='utf-8').read()] *)
Definition read_text (w : World) (p : str) : exn + str :=
  match files w !! p with
  | None => inl (missing w p)
  | Some (Utf8Text t) => inr (universal_newlines t)
  | Some _ => inl UnicodeDecodeError
  end.

(** [open(p, 'w', encoding='utf-8').write(text)].  A write that fails is
    taken to fail when the file is opened, before the file is truncated. *)
Definition write_text (w : World) (p : str) (text : str) : exn + World :=
  if bool_decide (p ∈ dirs w) then inl (IsADirectoryError p)
  else if bool_decide (p ∈ unwritable w) then inl (PermissionError p)
  else inr (mkWorld (<[p := Utf8Text text]> (files w)) (dirs w)
              (unwritable w) (unremovable w)).

(** [os.remove(p)] *)
Definition remove (w : World) (p : str) : exn + World :=
  if bool_decide (p ∈ dirs w) then inl (IsADirectoryError p)
  else if bool_decide (p ∈ unremovable w) then inl (PermissionError p)
  else match files w !! p with
       | None => inl (FileNotFoundError p)
       | Some _ => inr (mkWorld (delete p (files w)) (dirs w)
                          (unwritable w) (unremovable w))
       end.

Module OsPathFs.
Definition isfile (w : World) (p : str) : bool := bool_decide (p ∈ dom (files w)).
Definition isdir (w : World) (p : str) : bool := bool_decide (p ∈ dirs w).
Definition exists_ (w : World) (p : str) : bool := isfile w p || isdir w p.
End OsPathFs.

(** The state of a run: the file system and what was printed so far, one
    entry for each call of [print]. *)
Record State := mkState {
  world : World;
  stdout : list str
}.

(** A computation that reads and changes the state. *)
Definition M (A : Type) : Type := State → A * State.

#[global] Instance M_ret : MRet M := λ A x s, (x, s).
#[global] Instance M_bind : MBind M := λ A B f m s, f (m s).1 (m s).2.

Definition get_world : M World := λ s, (world s, s).
Definition set_world (w : World) : M unit := λ s, (tt, mkState w (stdout s)).
Definition print (line : str) : M unit :=
  λ s, (tt, mkState (world s) (stdout s ++ [line])).

(** An operation of the file system that changes it or raises. *)
Definition attempt (op : World → exn + World) : M (option exn) :=
  w ← get_world;
  match op w with
  | inl e => mret (Some e)
  | inr w' => set_world w';; mret None
  end.

(** ** The program *)

Definition start_marker : str := lit "allActions = `" ++ [NL].
Definition end_marker : str :=
  [NL] ++ lit "    `.trim().split('\n').map(s => JSON.parse(s))".

Definition json_gz : str := lit ".json.gz".
Definition gz : str := lit ".gz".
Definition html : str := lit ".html".

(** Command-line arguments after parsing. *)
Record Args := mkArgs {
  input : str;
  template : str;
  output : option str;
  pattern : str;
  limit : option Z
}.

Section Program.

(** [json.loads(line)]: [None] when the line parses, the exception raised
    otherwise ([JSONDecodeError] for text that is not JSON). *)
Variable json_loads : str → option exn.

(** [list(Path(input_dir).glob(pattern))], each entry as [str(entry)], for
    the patterns on which [Path.glob] returns; it raises, uncaught, on an
    absolute pattern and on a malformed one, and such runs are left out. *)
Variable glob : World → str → str → list str.

(** The body of the loop of [extract_mjai_log] (lines 32-41), over the lines
    still to come; [lines] are the lines kept so far.  An exception other
    than [JSONDecodeError] leaves the loop. *)
Fixpoint extract_loop (json_gz_path : str) (todo lines : list str)
  : M (exn + list str) :=
  match todo with
  | [] => mret (inr lines)
  | line :: todo' =>
      let line := Py.strip line in
      if Py.truthy line then
        match json_loads line with
        | None => extract_loop json_gz_path todo' (lines ++ [line])
        | Some JSONDecodeError =>
            print (lit "Warning: Skipping invalid JSON line in " ++ json_gz_path
                   ++ lit ": " ++ Py.slice_to line 100 ++ lit "...");;
            extract_loop json_gz_path todo' lines
        | Some e => mret (inl e)
        end
      else extract_loop json_gz_path todo' lines
  end.

Definition extract_mjai_log (json_gz_path : str) : M (option str) :=
  let fail (e : exn) : M (option str) :=
    print (lit "Error extracting " ++ json_gz_path ++ lit ": " ++ str_exn e);;
    mret None in
  w ← get_world;
  match gzip_open w json_gz_path with
  | inl e => fail e
  | inr (todo, ending) =>
      r ← extract_loop json_gz_path todo [];
      match r, ending with
      | inl e, _ => fail e
      | inr _, Some e => fail e
      | inr lines, None => mret (Some (Py.join [NL] lines))
      end
  end.

(** Lines 75-90 of [generate_html_file]: the new content, or [None] when a
    marker is not found. *)
Definition splice (template_content mjai_data : str) : option str :=
  let start_pos := Py.find template_content start_marker in
  let end_pos := Py.find template_content end_marker in
  if (start_pos =? -1) || (end_pos =? -1) then None
  else
    let before_data :=
      Py.slice_to template_content (start_pos + Py.len start_marker) in
    let after_data := Py.slice_from template_content end_pos in
    Some (before_data ++ mjai_data ++ after_data).

(** Lines 92-94: the name of the output file. *)
Definition html_name_of (json_gz_path : str) : str :=
  let json_gz_name := OsPath.basename json_gz_path in
  Py.replace json_gz_name json_gz html.

(** Lines 92-99: the path of the output file. *)
Definition output_path_of (json_gz_path : str) (output_dir : option str) : str :=
  let html_name := html_name_of json_gz_path in
  let output_dir :=
    match output_dir with
    | None => OsPath.dirname json_gz_path
    | Some d => d
    end in
  OsPath.join output_dir html_name.

Definition generate_html_file (json_gz_path template_path : str)
    (output_dir : option str) : M (option str) :=
  mjai_data ← extract_mjai_log json_gz_path;
  match mjai_data with
  | None => mret None
  | Some mjai_data =>
      w ← get_world;
      match read_text w template_path with
      | inl e =>
          print (lit "Error reading template " ++ template_path ++ lit ": "
                 ++ str_exn e);;
          mret None
      | inr template_content =>
          match splice template_content mjai_data with
          | None =>
              print (lit "Error: Could not find template markers in "
                     ++ template_path);;
              mret None
          | Some new_content =>
              let output_path := output_path_of json_gz_path output_dir in
              r ← attempt (λ w, write_text w output_path new_content);
              match r with
              | None =>
                  print (lit "Generated: " ++ output_path);;
                  mret (Some output_path)
              | Some e =>
                  print (lit "Error writing HTML file " ++ output_path
                         ++ lit ": " ++ str_exn e);;
                  mret None
              end
          end
      end
  end.

(** The loop of [process_directory] (lines 145-150); [i] is the number of
    the file and [n] the number of files found. *)
Fixpoint process_loop (template_path : str) (output_dir : option str)
    (n : nat) (i : nat) (todo : list str) (generated_files : list str)
  : M (list str) :=
  match todo with
  | [] => mret generated_files
  | json_gz_file :: todo' =>
      print (lit "Processing " ++ Py.str_of_nat i ++ lit "/" ++ Py.str_of_nat n
             ++ lit ": " ++ OsPath.basename json_gz_file);;
      html_file ← generate_html_file json_gz_file template_path output_dir;
      process_loop template_path output_dir n (S i) todo'
        match html_file with
        | Some p => if Py.truthy p then generated_files ++ [p]
                    else generated_files
        | None => generated_files
        end
  end.

(** Lines 137-152 of [process_directory]: what it does once the pattern has
    passed the safety check. *)
Definition process_matches (input_dir template_path : str)
    (output_dir : option str) (pattern : str) : M (list str) :=
  w ← get_world;
  let json_gz_files := glob w input_dir pattern in
  if negb (Py.truthy json_gz_files) then
    print (lit "No files matching '" ++ pattern ++ lit "' found in " ++ input_dir);;
    mret []
  else
    print (lit "Found " ++ Py.str_of_nat (length json_gz_files)
           ++ lit " files to process...");;
    process_loop template_path output_dir (length json_gz_files) 1
      json_gz_files [].

Definition process_directory (input_dir template_path : str)
    (output_dir : option str) (pattern : str) : M (list str) :=
  if negb (Py.endswith pattern json_gz) then
    print (lit "Warning: Pattern '" ++ pattern ++ lit "' does not end with .json.gz");;
    if negb (Py.endswith pattern gz) then
      print (lit "Error: Will only process compressed files for safety");;
      mret []
    else process_matches input_dir template_path output_dir pattern
  else process_matches input_dir template_path output_dir pattern.

(** The body of the loop of lines 195-202, for one path beyond the limit. *)
Definition remove_excess (file_path : str) : M unit :=
  w ← get_world;
  if Py.endswith file_path html && OsPathFs.exists_ w file_path then
    r ← attempt (λ w, remove w file_path);
    match r with
    | None => print (lit "Removed (limit exceeded): " ++ file_path)
    | Some e =>
        print (lit "Warning: Could not remove " ++ file_path ++ lit ": "
               ++ str_exn e)
    end
  else mret tt.

(** The loop of lines 195-202 over the paths beyond the limit. *)
Fixpoint remove_loop (todo : list str) : M unit :=
  match todo with
  | [] => mret tt
  | file_path :: todo' => remove_excess file_path;; remove_loop todo'
  end.

(** [args.limit and len(generated_files) > args.limit] *)
Definition limit_exceeded (limit : option Z) (generated_files : list str) : bool :=
  match limit with
  | None => false
  | Some l => negb (l =? 0) && (Py.len generated_files >? l)
  end.

(** Lines 193-203 of [main]: the result set after the limit is enforced. *)
Definition enforce_limit (limit : option Z) (generated_files : list str)
  : M (list str) :=
  match limit with
  | Some l =>
      if limit_exceeded limit generated_files then
        remove_loop (Py.slice_from generated_files l);;
        mret (Py.slice_to generated_files l)
      else mret generated_files
  | None => mret generated_files
  end.

(** [main], from the parsed arguments to the exit status; the second
    component is the result set of a directory run. *)
Definition main (args : Args) : M (Z * list str) :=
  w ← get_world;
  if negb (OsPathFs.exists_ w (template args)) then
    print (lit "Error: Template file not found: " ++ template args);;
    mret (1, [])
  else if OsPathFs.isfile w (input args) then
    if negb (Py.endswith (input args) json_gz) then
      print (lit "Error: Input file must be a .json.gz file");;
      mret (1, [])
    else
      html_file ← generate_html_file (input args) (template args) (output args);
      match html_file with
      | Some p =>
          if Py.truthy p then
            print (lit "Successfully generated: " ++ p);; mret (0, [])
          else print (lit "Failed to generate HTML file");; mret (1, [])
      | None => print (lit "Failed to generate HTML file");; mret (1, [])
      end
  else if OsPathFs.isdir w (input args) then
    generated_files ← process_directory (input args) (template args)
                        (output args) (pattern args);
    generated_files ← enforce_limit (limit args) generated_files;
    print ([NL] ++ lit "Successfully generated "
           ++ Py.str_of_nat (length generated_files) ++ lit " HTML files");;
    mret (0, generated_files)
  else
    print (lit "Error: Input path does not exist: " ++ input args);;
    mret (1, []).

End Program.

(** ** Instances of the library functions

    A recogniser of JSON texts as [json.loads] accepts them (RFC 8259, and
    the constants [NaN], [Infinity] and [-Infinity]), and a [glob] for the
    patterns made of literal characters, [*] and [?].  The theorems below hold
    for every [json_loads] and every [glob]; these two are used where a run of
    the program is evaluated. *)

Module Json.

Definition is_ws (c : ascii) : bool :=
  bool_decide (c ∈ [" "%char; ascii_of_nat 9; NL; CR]).

Fixpoint skip_ws (s : str) : str :=
  match s with
  | c :: s' => if is_ws c then skip_ws s' else s
  | [] => []
  end.

Definition is_digit (c : ascii) : bool :=
  (48 <=? nat_of_ascii c)%nat && (nat_of_ascii c <=? 57)%nat.

Definition is_hex (c : ascii) : bool :=
  let n := nat_of_ascii c in
  (is_digit c || (65 <=? n) && (n <=? 70) || (97 <=? n) && (n <=? 102))%nat.

Fixpoint skip_digits (s : str) : str :=
  match s with
  | c :: s' => if is_digit c then skip_digits s' else s
  | [] => []
  end.

(** The rest of the input after [word], if the input starts with it. *)
Definition keyword (word : string) (s : str) : option str :=
  if Py.startswith s (lit word) then Some (drop (length (lit word)) s) else None.

(** After the opening quote of a string: the input after its closing quote. *)
Fixpoint string_body (s : str) : option str :=
  match s with
  | [] => None
  | c :: s' =>
      if Ascii.eqb c (ascii_of_nat 34) then Some s'
      else if Ascii.eqb c "\"%char then
        match s' with
        | e :: s'' =>
            if bool_decide (e ∈ [ascii_of_nat 34; "\"; "/"; "b"; "f"; "n"; "r"; "t"]%char)
            then string_body s''
            else if Ascii.eqb e "u"%char then
              match s'' with
              | h1 :: ((h2 :: (h3 :: (h4 :: _) as r3) as r2) as r1) =>
                  if is_hex h1 && is_hex h2 && is_hex h3 && is_hex h4
                  then string_body r1 else None
              | _ => None
              end
            else None
        | [] => None
        end
      else if (nat_of_ascii c <? 32)%nat then None
      else string_body s'
  end.

(** A number: an optional minus sign, an integer part without leading
    zeros, an optional fraction and an optional exponent; the input after the
    longest match, if there is one. *)
Definition number (s : str) : option str :=
  let s := match s with c :: s' => if Ascii.eqb c "-"%char then s' else s | [] => s end in
  match s with
  | c :: s' =>
      if is_digit c then
        let after_int := if Ascii.eqb c "0"%char then s' else skip_digits s' in
        let after_frac :=
          match after_int with
          | d :: ((x :: _) as r) =>
              if Ascii.eqb d "."%char && is_digit x then skip_digits r else after_int
          | _ => after_int
          end in
        let digits_of (r : str) : option str :=
          match r with
          | x :: _ => if is_digit x then Some (skip_digits r) else None
          | [] => None
          end in
        match after_frac with
        | e :: r =>
            if Ascii.eqb e "e"%char || Ascii.eqb e "E"%char then
              let r' := match r with
                        | g :: r'' => if Ascii.eqb g "+"%char || Ascii.eqb g "-"%char
                                      then r'' else r
                        | [] => r
                        end in
              Some (default after_frac (digits_of r'))
            else Some after_frac
        | [] => Some after_frac
        end
      else None
  | [] => None
  end.

Inductive mode := Value | Members | Elements.

(** The input after a value, after the members of an object up to its
    closing brace, or after the elements of an array up to its bracket. *)
Fixpoint parse (fuel : nat) (m : mode) (s : str) : option str :=
  match fuel with
  | O => None
  | S fuel =>
      match m with
      | Value =>
          match s with
          | [] => None
          | c :: r =>
              if Ascii.eqb c (ascii_of_nat 34) then string_body r
              else if Ascii.eqb c "{"%char then
                match skip_ws r with
                | d :: r' => if Ascii.eqb d "}"%char then Some r'
                             else parse fuel Members (d :: r')
                | [] => None
                end
              else if Ascii.eqb c "["%char then
                match skip_ws r with
                | d :: r' => if Ascii.eqb d "]"%char then Some r'
                             else parse fuel Elements (d :: r')
                | [] => None
                end
              else
                match keyword "null" s, keyword "true" s, keyword "false" s,
                      keyword "NaN" s, keyword "Infinity" s, keyword "-Infinity" s with
                | Some r', _, _, _, _, _ | _, Some r', _, _, _, _
                | _, _, Some r', _, _, _ | _, _, _, Some r', _, _
                | _, _, _, _, Some r', _ | _, _, _, _, _, Some r' => Some r'
                | _, _, _, _, _, _ => number s
                end
          end
      | Members =>
          match s with
          | c :: r =>
              if Ascii.eqb c (ascii_of_nat 34) then
                match string_body r with
                | Some r1 =>
                    match skip_ws r1 with
                    | d :: r2 =>
                        if Ascii.eqb d ":"%char then
                          match parse fuel Value (skip_ws r2) with
                          | Some r3 =>
                              match skip_ws r3 with
                              | e :: r4 =>
                                  if Ascii.eqb e "}"%char then Some r4
                                  else if Ascii.eqb e ","%char
                                  then parse fuel Members (skip_ws r4)
                                  else None
                              | [] => None
                              end
                          | None => None
                          end
                        else None
                    | [] => None
                    end
                | None => None
                end
              else None
          | [] => None
          end
      | Elements =>
          match parse fuel Value s with
          | Some r1 =>
              match skip_ws r1 with
              | e :: r2 =>
                  if Ascii.eqb e "]"%char then Some r2
                  else if Ascii.eqb e ","%char
                  then parse fuel Elements (skip_ws r2)
                  else None
              | [] => None
              end
          | None => None
          end
      end
  end.

(** [json.loads]: one value between optional white space, and nothing else. *)
Definition loads (s : str) : option exn :=
  match parse (S (length s)) Value (skip_ws s) with
  | Some r => match skip_ws r with [] => None | _ => Some JSONDecodeError end
  | None => Some JSONDecodeError
  end.

End Json.

Module Glob.

(** [fnmatch] for patterns of literal characters, [*] and [?]. *)
Fixpoint fnmatch (pat name : str) : bool :=
  match pat with
  | [] => negb (Py.truthy name)
  | c :: pat' =>
      if Ascii.eqb c "*"%char then
        (fix star (name : str) : bool :=
           fnmatch pat' name
           || match name with [] => false | _ :: name' => star name' end) name
      else
        match name with
        | x :: name' => (Ascii.eqb c "?"%char || Ascii.eqb x c) && fnmatch pat' name'
        | [] => false
        end
  end.

(** The regular files of [input_dir] whose name matches [pattern]. *)
Definition glob (w : World) (input_dir pattern : str) : list str :=
  filter (λ p, OsPath.dirname p = input_dir ∧ fnmatch pattern (OsPath.basename p) = true)
    (map fst (map_to_list (files w))).

End Glob.

(** ** Notions the properties are stated with *)

(** [pat] occurs in [s] at index [k]. *)
Definition occurs_at (pat s : str) (k : nat) : Prop :=
  ∃ rest, drop k s = pat ++ rest.

(** [k] is the index of the first occurrence of [pat] in [s]. *)
Definition first_occurrence (pat s : str) (k : nat) : Prop :=
  occurs_at pat s k ∧ ∀ j, (j < k)%nat → ¬ occurs_at pat s j.

(** [pat] occurs nowhere in [s]. *)
Definition absent (pat s : str) : Prop := ∀ k, ¬ occurs_at pat s k.

(** [s] ends with [suf]. *)
Definition ends_with (s suf : str) : Prop := ∃ stem, s = stem ++ suf.

(** The lines of an archive that reach the parser: stripped and not blank. *)
Definition candidates (todo : list str) : list str :=
  filter (λ l, l ≠ []) (Py.strip <$> todo).

(** The lines of the text of an archive, as the reader iterates over them. *)
Definition archive_lines (text : str) : list str :=
  candidates (readlines (universal_newlines text)).

(** On a line [json.loads] succeeds, or raises [JSONDecodeError]; it can
    raise other exceptions, and such a line is neither. *)
Definition parses (json_loads : str → option exn) (l : str) : Prop :=
  json_loads l = None.
Definition malformed (json_loads : str → option exn) (l : str) : Prop :=
  json_loads l = Some JSONDecodeError.

#[global] Instance parses_dec json_loads l : Decision (parses json_loads l).
Proof. unfold parses. apply _. Defined.
#[global] Instance malformed_dec json_loads l : Decision (malformed json_loads l).
Proof. unfold malformed. apply _. Defined.

(** The diagnostic for a line that is left out. *)
Definition skip_warning (json_gz_path line : str) : str :=
  lit "Warning: Skipping invalid JSON line in " ++ json_gz_path ++ lit ": "
  ++ take 100 line ++ lit "...".

(** The diagnostic for an archive that cannot be read. *)
Definition extract_error (json_gz_path : str) (e : exn) : str :=
  lit "Error extracting " ++ json_gz_path ++ lit ": " ++ str_exn e.

(** The diagnostic for a template without its markers. *)
Definition markers_error (template_path : str) : str :=
  lit "Error: Could not find template markers in " ++ template_path.

(** The state after [lines] were printed. *)
Definition printed (st : State) (lines : list str) : State :=
  mkState (world st) (stdout st ++ lines).

(** The state after the file system became [w] and [lines] were printed. *)
Definition moved (st : State) (w : World) (lines : list str) : State :=
  mkState w (stdout st ++ lines).

(** The diagnostics of the report generator. *)
Definition template_error (template_path : str) (e : exn) : str :=
  lit "Error reading template " ++ template_path ++ lit ": " ++ str_exn e.
Definition write_error (output_path : str) (e : exn) : str :=
  lit "Error writing HTML file " ++ output_path ++ lit ": " ++ str_exn e.
Definition generated_note (output_path : str) : str :=
  lit "Generated: " ++ output_path.

(** The archive at [p] cannot be read to its end as a gzip stream of text. *)
Definition unreadable (w : World) (p : str) : Prop :=
  ∀ t, files w !! p ≠ Some (GzipText t).

(** The file system after [text] was written to [p]. *)
Definition with_file (w : World) (p : str) (text : str) : World :=
  mkWorld (<[p := Utf8Text text]> (files w)) (dirs w) (unwritable w) (unremovable w).

(** [p] can be opened for writing. *)
Definition writable (w : World) (p : str) : Prop :=
  (p ∉ dirs w) ∧ (p ∉ unwritable w).

(** [os.remove(q)] would succeed on [q] if it exists, and the limit step
    would try it: [q] ends in [.html], is not a directory and can be
    removed. *)
Definition deletable (w : World) (q : str) : bool :=
  Py.endswith q html && negb (bool_decide (q ∈ dirs w))
  && negb (bool_decide (q ∈ unremovable w)).

(** The diagnostics of the batch coordinator. *)
Definition pattern_warning (pattern : str) : str :=
  lit "Warning: Pattern '" ++ pattern ++ lit "' does not end with .json.gz".
Definition pattern_error : str :=
  lit "Error: Will only process compressed files for safety".
Definition summary (n : nat) : str :=
  [NL] ++ lit "Successfully generated " ++ Py.str_of_nat n ++ lit " HTML files".
Definition demo_template : str :=
  lit "<script>" ++ start_marker ++ lit "[0]" ++ end_marker ++ lit "</script>".

(** [payload.split('\n')]: the lines of a payload. *)
Fixpoint split_lines_from (cur : str) (s : str) : list str :=
  match s with
  | [] => [reverse cur]
  | c :: s' =>
      if Ascii.eqb c NL then reverse cur :: split_lines_from [] s'
      else split_lines_from (c :: cur) s'
  end.

Definition split_lines (s : str) : list str := split_lines_from [] s.

(** ** A small file system for the runs evaluated below *)

(** An archive of four lines: a record, a malformed line ended by [\r\n], a
    blank line and a record with spaces around it. *)
Definition demo_archive_text : str :=
  lit "{}" ++ [NL] ++ lit "{bad json" ++ [CR; NL] ++ [NL] ++ lit "  [1, 2]  " ++ [NL].

(** An archive with a blank and a malformed line only. *)
Definition demo_blank_text : str := lit "   " ++ [NL] ++ lit "{bad" ++ [NL].

(** A template without its end marker, and one with the end marker first. *)
Definition broken_template : str := lit "<script>" ++ start_marker ++ lit "</script>".
Definition reversed_template : str := end_marker ++ start_marker.

Definition demo_world : World :=
  mkWorld
    (list_to_map
       [ (lit "logs/game.json.gz", GzipText demo_archive_text);
         (lit "logs/blank.json.gz", GzipText demo_blank_text);
         (lit "logs/junk.json.gz", Opaque);
         (lit "logs/cut.json.gz",
          GzipBroken (lit "{bad" ++ [NL] ++ lit "{}" ++ [NL])
            (OtherError (lit "Compressed file ended before the end-of-stream marker was reached")));
         (lit "logs/a.txt.gz", GzipText (lit "{}"));
         (lit "index.example.html", Utf8Text demo_template);
         (lit "broken.html", Utf8Text broken_template);
         (lit "reversed.html", Utf8Text reversed_template) ])
    {[ lit "logs" ]} ∅ ∅.

Definition demo_state : State := mkState demo_world [].

(** The arguments of a run on one file that is not named [.json.gz]. *)
Definition single_file_args : Args :=
  mkArgs (lit "logs/a.txt.gz") (lit "index.example.html") None (lit "*.json.gz") None.

(** The arguments of runs on the directory [logs]: with a pattern that is
    refused, with a pattern that is let through with a warning, with the
    default pattern and a limit of no report, of one report, and of minus
    one. *)
Definition directory_args (pattern : string) (limit : option Z) : Args :=
  mkArgs (lit "logs") (lit "index.example.html") None (lit pattern) limit.

Definition unsafe_args : Args := directory_args "*.txt" (Some 1).
Definition gz_args : Args := directory_args "*.txt.gz" None.
Definition limit_zero_args : Args := directory_args "*.json.gz" (Some 0).
Definition limit_one_args : Args := directory_args "*.json.gz" (Some 1).
Definition limit_negative_args : Args := directory_args "*.json.gz" (Some (-1)).

(** The result set and the state after the reports of [logs] were generated. *)
Definition batch_run : list str * State :=
  process_directory Json.loads Glob.glob (lit "logs") (lit "index.example.html")
    None (lit "*.json.gz") demo_state.

(** The same file system, where [logs/game.html] cannot be removed. *)
Definition locked_state : State :=
  mkState (mkWorld (files demo_world) (dirs demo_world) ∅ {[ lit "logs/game.html" ]}) [].

(** A pattern that matches nothing in [logs]. *)
Definition no_match_args : Args := directory_args "none-*.json.gz" (Some 3).


(** ** Further notions *)

(** A diagnostic about a line that was left out of the payload of [p]. *)
Definition is_skip_warning (p line : str) : Prop := ∃ l, line = skip_warning p l.

(** The last diagnostic of a run of the report generator that fails. *)
Definition failure_message (p tp : str) (od : option str) (msg : str) : Prop :=
  (∃ e, msg = extract_error p e)
  ∨ (∃ e, msg = template_error tp e)
  ∨ msg = markers_error tp
  ∨ (∃ e, msg = write_error (output_path_of p od) e).

(** The text between the markers of a template: from the end of the start
    marker found at [i] to the end marker found at [j]. *)
Definition interior (t : str) (i j : nat) : str :=
  take (j - (i + length start_marker)) (drop (i + length start_marker) t).

(** A path written the usual way: a bare name, or a directory part that does
    not end in a slash, a slash and the name. *)
Definition plain_path (p : str) : Prop :=
  p = OsPath.basename p
  ∨ ∃ d, p = d ++ OsPath.sep :: OsPath.basename p ∧ ¬ ends_with d [OsPath.sep].

(** The number of entries that the limit step keeps of a result set of [n]
    entries: all of them without a limit, with a limit of 0 and with a limit
    of [n] or more; the first [l] for a limit [l] between; and all but the
    last [-l] for a negative limit [l]. *)
Definition kept_count (limit : option Z) (n : nat) : nat :=
  match limit with
  | None => n
  | Some l =>
      if (l =? 0) || (Z.of_nat n <=? l) then n
      else if l <? 0 then Z.to_nat (Z.max 0 (Z.of_nat n + l))
      else Z.to_nat l
  end.

(** [q] was a file before and is none after. *)
Definition removed (w w' : World) (q : str) : Prop :=
  q ∈ dom (files w) ∧ q ∉ dom (files w').

(** [q] is a regular file that holds text. *)
Definition is_text (w : World) (q : str) : Prop :=
  ∃ text, files w !! q = Some (Utf8Text text).

(** The output paths of a list of archives. *)
Definition output_paths (od : option str) (archives : list str) : list str :=
  (λ f, output_path_of f od) <$> archives.

(** The line that announces the [i]-th of [n] archives. *)
Definition progress_note (i n : nat) (json_gz_file : str) : str :=
  lit "Processing " ++ Py.str_of_nat i ++ lit "/" ++ Py.str_of_nat n
  ++ lit ": " ++ OsPath.basename json_gz_file.

(** The notice for a pattern that matches nothing. *)
Definition no_match_note (pattern input_dir : str) : str :=
  lit "No files matching '" ++ pattern ++ lit "' found in " ++ input_dir.



(** ** [json.loads] with the limit on the digits of an integer

    From Python 3.11 on, converting a string of more than 4300 digits to an
    integer raises [ValueError], which is not a [JSONDecodeError].  The
    scanner converts an integer as soon as it has read it, so a text whose
    first token is such an integer raises before the rest of the text is
    looked at.  Longer integers further inside a text are not looked for
    here. *)

Module JsonLimit.

Definition max_str_digits : nat := 4300.

(** The number of digits of the integer that the text begins with, when its
    first token is an integer with no fraction and no exponent. *)
Definition int_token_digits (s : str) : option nat :=
  let b := Json.skip_ws s in
  let b := match b with
           | c :: r => if Ascii.eqb c "-"%char then r else b
           | [] => []
           end in
  match b with
  | c :: r =>
      if Json.is_digit c && negb (Ascii.eqb c "0"%char) then
        let rest := Json.skip_digits r in
        let is_frac :=
          match rest with
          | d :: x :: _ => Ascii.eqb d "."%char && Json.is_digit x
          | _ => false
          end in
        let is_exp :=
          match rest with
          | e :: x :: y =>
              (Ascii.eqb e "e"%char || Ascii.eqb e "E"%char)
              && (Json.is_digit x
                  || (Ascii.eqb x "+"%char || Ascii.eqb x "-"%char)
                     && match y with z :: _ => Json.is_digit z | [] => false end)
          | _ => false
          end in
        if is_frac || is_exp then None
        else Some (length b - length rest)%nat
      else None
  | [] => None
  end.

Definition value_error (digits : nat) : exn :=
  OtherError (lit "Exceeds the limit (4300 digits) for integer string conversion: value has "
              ++ Py.str_of_nat digits
              ++ lit " digits; use sys.set_int_max_str_digits() to increase the limit").

Definition loads (s : str) : option exn :=
  match int_token_digits s with
  | Some n => if (max_str_digits <? n)%nat then Some (value_error n) else Json.loads s
  | None => Json.loads s
  end.

End JsonLimit.

(** An integer of 5000 digits, and the same followed by a letter. *)
Definition long_integer : str := replicate 5000 "1"%char.
Definition long_integer_x : str := long_integer ++ lit "x".

(** An archive of three lines: a record, the long integer and a malformed
    line; and an archive that holds a blank line and the long integer
    followed by a letter, which is not JSON. *)
Definition long_archive_text : str :=
  lit "{}" ++ [NL] ++ long_integer ++ [NL] ++ lit "{bad" ++ [NL].
Definition long_blank_text : str := lit "  " ++ [NL] ++ long_integer_x ++ [NL].

Definition long_state : State :=
  mkState
    (mkWorld
       (list_to_map
          [ (lit "logs/long.json.gz", GzipText long_archive_text);
            (lit "logs/odd.json.gz", GzipText long_blank_text);
            (lit "index.example.html", Utf8Text demo_template) ])
       {[ lit "logs" ]} ∅ ∅)
    [].

(** ** Facts about the string functions *)

Lemma ascii_eqb_true (a b : ascii) : Ascii.eqb a b = true ↔ a = b.
Proof. apply Ascii.eqb_eq. Qed.

Lemma startswith_spec (s pat : str) :
  Py.startswith s pat = true ↔ ∃ rest, s = pat ++ rest.
Proof.
  revert s. induction pat as [|p pat IH]; intros s; simpl.
  - split; [intros _; by exists s | by destruct s].
  - destruct s as [|c s]; simpl.
    + split; [done | intros [r Hr]; discriminate].
    + rewrite andb_true_iff, ascii_eqb_true, IH. split.
      * intros [-> [r ->]]. eauto.
      * intros [r Hr]. injection Hr as -> ->. eauto.
Qed.

Lemma startswith_occurs (s pat : str) :
  Py.startswith s pat = true ↔ occurs_at pat s 0.
Proof. apply startswith_spec. Qed.

Lemma occurs_at_S (pat : str) (c : ascii) (s : str) (k : nat) :
  occurs_at pat (c :: s) (S k) ↔ occurs_at pat s k.
Proof. done. Qed.

Lemma occurs_at_bound (pat s : str) (k : nat) :
  occurs_at pat s k → pat ≠ [] → (k + length pat ≤ length s)%nat.
Proof.
  intros [r Hr] Hne. assert (length (drop k s) = length (pat ++ r)) as Hl by (by rewrite Hr).
  rewrite length_drop, length_app in Hl. destruct pat; [done|]. simpl in *. lia.
Qed.

Lemma find_range (s pat : str) :
  Py.find s pat = -1 ∨ 0 ≤ Py.find s pat ≤ Py.len s.
Proof.
  induction s as [|c s IH]; unfold Py.len in *; cbn [Py.find length].
  - destruct (Py.startswith [] pat); lia.
  - destruct (Py.startswith (c :: s) pat); [lia|].
    destruct (Z.eqb_spec (Py.find s pat) (-1)); lia.
Qed.

Lemma find_absent (s pat : str) : Py.find s pat = -1 ↔ absent pat s.
Proof.
  induction s as [|c s IH]; cbn [Py.find].
  - destruct (Py.startswith [] pat) eqn:E.
    + split; [done|]. intros H. apply startswith_occurs in E. by destruct (H 0%nat).
    + split; [|done]. intros _ k [r Hr]. rewrite drop_nil in Hr.
      destruct pat; [done | discriminate].
  - destruct (Py.startswith (c :: s) pat) eqn:E.
    + split; [done|]. intros H. apply startswith_occurs in E. by destruct (H 0%nat).
    + destruct (Z.eqb_spec (Py.find s pat) (-1)) as [Hm|Hm].
      * split; [|done]. intros _ [|k] Hk.
        -- apply startswith_occurs in Hk. congruence.
        -- apply occurs_at_S in Hk. by apply (proj1 IH Hm k).
      * split; [destruct (find_range s pat); lia|].
        intros H. exfalso. apply Hm, IH. intros k Hk. apply (H (S k)). by apply occurs_at_S.
Qed.

Lemma find_first_occurrence (s pat : str) (k : nat) :
  Py.find s pat = Z.of_nat k ↔ first_occurrence pat s k.
Proof.
  revert k. induction s as [|c s IH]; intros k; cbn [Py.find].
  - destruct (Py.startswith [] pat) eqn:E.
    + apply startswith_occurs in E. split.
      * intros Hk. assert (k = 0%nat) as -> by lia. split; [done | intros; lia].
      * intros [_ Hk]. destruct k; [done|]. destruct (Hk 0%nat); [lia | done].
    + split; [lia|]. intros [[r Hr] _]. rewrite drop_nil in Hr.
      destruct pat; [done | discriminate].
  - destruct (Py.startswith (c :: s) pat) eqn:E.
    + apply startswith_occurs in E. split.
      * intros Hk. assert (k = 0%nat) as -> by lia. split; [done | intros; lia].
      * intros [_ Hk]. destruct k; [done|]. destruct (Hk 0%nat); [lia | done].
    + assert (¬ occurs_at pat (c :: s) 0) as E'
        by (rewrite <- startswith_occurs; congruence).
      destruct (Z.eqb_spec (Py.find s pat) (-1)) as [Hm|Hm].
      * split; [lia|]. intros [Ho _]. destruct k; [done|].
        apply find_absent in Hm. by destruct (Hm k).
      * destruct k as [|k].
        -- split; [destruct (find_range s pat); lia | by intros [? _]].
        -- assert (Py.find s pat + 1 = Z.of_nat (S k) ↔ Py.find s pat = Z.of_nat k)
             as -> by lia.
           rewrite IH. unfold first_occurrence. rewrite occurs_at_S. split.
           ++ intros [Ho Hf]. split; [done|]. intros [|j] Hj; [done|].
              rewrite occurs_at_S. apply Hf. lia.
           ++ intros [Ho Hf]. split; [done|]. intros j Hj.
              rewrite <- (occurs_at_S pat c). apply Hf. lia.
Qed.

Lemma first_occurrence_unique (pat s : str) (i j : nat) :
  first_occurrence pat s i → first_occurrence pat s j → i = j.
Proof.
  intros [Hi Hi'] [Hj Hj']. destruct (Nat.lt_trichotomy i j) as [H|[H|H]]; [|done|].
  - by destruct (Hj' i).
  - by destruct (Hi' j).
Qed.

Lemma slice_to_nat {A} (xs : list A) (k : nat) :
  Py.slice_to xs (Z.of_nat k) = take k xs.
Proof.
  unfold Py.slice_to. destruct (Z.ltb_spec (Z.of_nat k) 0); [lia|]. by rewrite Nat2Z.id.
Qed.

Lemma slice_from_nat {A} (xs : list A) (k : nat) :
  Py.slice_from xs (Z.of_nat k) = drop k xs.
Proof.
  unfold Py.slice_from. destruct (Z.ltb_spec (Z.of_nat k) 0); [lia|]. by rewrite Nat2Z.id.
Qed.

(** ** The template splicer *)

Lemma splice_found (t payload : str) (i j : nat) :
  Py.find t start_marker = Z.of_nat i →
  Py.find t end_marker = Z.of_nat j →
  splice t payload
  = Some (take (i + length start_marker) t ++ payload ++ drop j t).
Proof.
  intros Hi Hj. unfold splice. rewrite Hi, Hj.
  destruct (Z.eqb_spec (Z.of_nat i) (-1)); [lia|].
  destruct (Z.eqb_spec (Z.of_nat j) (-1)); [lia|]. cbn [orb].
  unfold Py.len. rewrite <- Nat2Z.inj_add, slice_to_nat, slice_from_nat. done.
Qed.

Lemma splice_None (t payload : str) :
  splice t payload = None ↔ absent start_marker t ∨ absent end_marker t.
Proof.
  rewrite <- !find_absent. unfold splice.
  destruct (Z.eqb_spec (Py.find t start_marker) (-1)),
           (Z.eqb_spec (Py.find t end_marker) (-1)); cbn [orb]; split;
    try done; auto; intros [?|?]; done.
Qed.

(** C3: when both markers occur in the template, the spliced document is the
    template up to and including the first start marker, then the payload,
    then the template from the first end marker onward, for every payload;
    so it agrees with the template before and after the injected payload. *)
Theorem splice_between_first_markers (t payload : str) (i j : nat) :
  first_occurrence start_marker t i →
  first_occurrence end_marker t j →
  ∃ out,
    splice t payload = Some out
    ∧ out = take (i + length start_marker) t ++ payload ++ drop j t
    ∧ take (i + length start_marker) out = take (i + length start_marker) t
    ∧ drop (i + length start_marker + length payload) out = drop j t.
Proof.
  intros Hi Hj. eexists. split; [|split; [reflexivity|]].
  - apply splice_found; by apply find_first_occurrence.
  - destruct Hi as [Hi _]. apply occurs_at_bound in Hi; [|done].
    assert (length (take (i + length start_marker) t) = (i + length start_marker)%nat)
      as Hl by (rewrite length_take; lia).
    split.
    + rewrite take_app_le by lia. rewrite take_ge by lia. done.
    + rewrite drop_app_ge by lia. rewrite Hl.
      replace (i + length start_marker + length payload - (i + length start_marker))%nat
        with (length payload) by lia.
      by rewrite drop_app_length.
Qed.
Lemma splice_between_first_markers_witness :
  first_occurrence start_marker demo_template 8
  ∧ first_occurrence end_marker demo_template 26
  ∧ ∃ out,
      splice demo_template end_marker = Some out
      ∧ out = take (8 + length start_marker) demo_template ++ end_marker
              ++ drop 26 demo_template
      ∧ take (8 + length start_marker) out
        = take (8 + length start_marker) demo_template
      ∧ drop (8 + length start_marker + length end_marker) out
        = drop 26 demo_template.
Proof.
  assert (first_occurrence start_marker demo_template 8) as H1
    by (apply find_first_occurrence; vm_compute; reflexivity).
  assert (first_occurrence end_marker demo_template 26) as H2
    by (apply find_first_occurrence; vm_compute; reflexivity).
  split; [exact H1|]. split; [exact H2|].
  exact (splice_between_first_markers demo_template end_marker 8 26 H1 H2).
Defined.

(** ** The archive reader *)

Ltac run :=
  repeat (progress (unfold mbind, M_bind, mret, M_ret, get_world, set_world,
                      print, attempt));
  cbn [fst snd world stdout].

Lemma printed_nil (st : State) : printed st [] = st.
Proof. destruct st. unfold printed. cbn. by rewrite app_nil_r. Qed.

Lemma printed_printed (st : State) (l1 l2 : list str) :
  printed (printed st l1) l2 = printed st (l1 ++ l2).
Proof. unfold printed. cbn. by rewrite app_assoc. Qed.

Lemma truthy_ne {A} (xs : list A) : Py.truthy xs = true ↔ xs ≠ [].
Proof. by destruct xs. Qed.

Lemma candidates_blank (line : str) (todo : list str) :
  Py.strip line = [] → candidates (line :: todo) = candidates todo.
Proof. intros H. unfold candidates. rewrite fmap_cons, H. by rewrite filter_cons_False by tauto. Qed.

Lemma candidates_cons (line : str) (todo : list str) :
  Py.strip line ≠ [] → candidates (line :: todo) = Py.strip line :: candidates todo.
Proof. intros H. unfold candidates. rewrite fmap_cons. by rewrite filter_cons_True. Qed.

Section ReaderFacts.

Variable json_loads : str → option exn.

Local Abbreviation ok := (parses json_loads).
Local Abbreviation bad := (malformed json_loads).

Lemma extract_loop_blank path line todo acc st :
  Py.strip line = [] →
  extract_loop json_loads path (line :: todo) acc st
  = extract_loop json_loads path todo acc st.
Proof. intros H. cbn [extract_loop]. by rewrite H. Qed.

Lemma extract_loop_keep path line todo acc st :
  Py.strip line ≠ [] → json_loads (Py.strip line) = None →
  extract_loop json_loads path (line :: todo) acc st
  = extract_loop json_loads path todo (acc ++ [Py.strip line]) st.
Proof.
  intros H Hj. cbn [extract_loop]. apply truthy_ne in H. by rewrite H, Hj.
Qed.

Lemma extract_loop_skip path line todo acc st :
  Py.strip line ≠ [] → json_loads (Py.strip line) = Some JSONDecodeError →
  extract_loop json_loads path (line :: todo) acc st
  = extract_loop json_loads path todo acc
      (printed st [skip_warning path (Py.strip line)]).
Proof.
  intros H Hj. cbn [extract_loop]. apply truthy_ne in H. by rewrite H, Hj.
Qed.

Lemma extract_loop_raise path line todo acc st e :
  Py.strip line ≠ [] → json_loads (Py.strip line) = Some e → e ≠ JSONDecodeError →
  extract_loop json_loads path (line :: todo) acc st = (inl e, st).
Proof.
  intros H Hj Hne. cbn [extract_loop]. apply truthy_ne in H. rewrite H, Hj.
  by destruct e.
Qed.

(** The loop keeps the candidates that parse, warns about the malformed
    ones, and stops at the first candidate that raises something else. *)
Lemma extract_loop_run (path : str) (todo acc : list str) (st : State) :
  ∃ warnings,
    Forall (λ line, ∃ l, l ∈ candidates todo ∧ bad l ∧ line = skip_warning path l)
      warnings
    ∧ ((∃ e l, (extract_loop json_loads path todo acc st).1 = inl e
              ∧ l ∈ candidates todo ∧ json_loads l = Some e ∧ e ≠ JSONDecodeError)
       ∨ (Forall (λ l, ok l ∨ bad l) (candidates todo)
          ∧ (extract_loop json_loads path todo acc st).1
            = inr (acc ++ filter ok (candidates todo))
          ∧ warnings = skip_warning path <$> filter bad (candidates todo)))
    ∧ (extract_loop json_loads path todo acc st).2 = printed st warnings.
Proof.
  revert acc st. induction todo as [|line todo IH]; intros acc st.
  - exists []. cbn. rewrite app_nil_r, printed_nil. split; [done|]. split; [|done].
    right. done.
  - destruct (decide (Py.strip line = [])) as [Hs|Hs].
    { rewrite extract_loop_blank, candidates_blank by done. apply IH. }
    rewrite candidates_cons by done.
    destruct (json_loads (Py.strip line)) as [e|] eqn:Ej.
    + destruct (decide (e = JSONDecodeError)) as [->|Hne].
      * rewrite extract_loop_skip by done.
        destruct (IH acc (printed st [skip_warning path (Py.strip line)]))
          as (ws & Hws & Hres & Hst).
        exists (skip_warning path (Py.strip line) :: ws). split; [|split].
        -- constructor.
           ++ exists (Py.strip line). split; [left|done].
           ++ eapply Forall_impl; [exact Hws|]. cbn. intros x (l & Hl & Hm & ->).
              exists l. split; [by right|done].
        -- destruct Hres as [(e & l & He & Hl & Hle & Hne)|(Hall & Hr & ->)].
           ++ left. exists e, l. split; [done|]. split; [by right|done].
           ++ right. split; [constructor; [by right|done]|].
              rewrite filter_cons_False by (unfold parses; congruence).
              rewrite filter_cons_True by done. done.
        -- rewrite Hst. by rewrite printed_printed.
      * rewrite (extract_loop_raise _ _ _ _ _ e) by done.
        exists []. rewrite printed_nil. split; [done|]. split; [|done].
        left. exists e, (Py.strip line). split; [done|]. split; [left|done].
    + rewrite extract_loop_keep by done.
      destruct (IH (acc ++ [Py.strip line]) st) as (ws & Hws & Hres & Hst).
      exists ws. split; [|split; [|done]].
      * eapply Forall_impl; [exact Hws|]. cbn. intros x (l & Hl & Hm & ->).
        exists l. split; [by right|done].
      * destruct Hres as [(e & l & He & Hl & Hle & Hne)|(Hall & Hr & ->)].
        -- left. exists e, l. split; [done|]. split; [by right|done].
        -- right. split; [constructor; [by left|done]|].
           rewrite filter_cons_True by done.
           rewrite filter_cons_False by (unfold malformed; congruence).
           rewrite Hr, <- app_assoc. done.
Qed.

End ReaderFacts.

(** *** Lines hold no newline once stripped *)

Lemma lstrip_elem (x : ascii) (s : str) : x ∈ Py.lstrip s → x ∈ s.
Proof.
  induction s as [|c s IH]; cbn [Py.lstrip]; [done|].
  destruct (Py.isspace c); [|done]. intros H. right. by apply IH.
Qed.

Lemma rstrip_elem (x : ascii) (s : str) : x ∈ Py.rstrip s → x ∈ s.
Proof.
  unfold Py.rstrip. rewrite elem_of_reverse. intros H%lstrip_elem.
  by rewrite elem_of_reverse in H.
Qed.

Lemma strip_elem (x : ascii) (s : str) : x ∈ Py.strip s → x ∈ s.
Proof. unfold Py.strip. intros H%rstrip_elem. by apply lstrip_elem. Qed.

Lemma rstrip_snoc_space (s : str) (c : ascii) :
  Py.isspace c = true → Py.rstrip (s ++ [c]) = Py.rstrip s.
Proof.
  intros H. unfold Py.rstrip. rewrite reverse_snoc. cbn [Py.lstrip]. by rewrite H.
Qed.

Lemma lstrip_snoc_space (s : str) (c : ascii) :
  Py.isspace c = true →
  Py.lstrip (s ++ [c]) = match Py.lstrip s with [] => [] | _ => Py.lstrip s ++ [c] end.
Proof.
  intros H. induction s as [|x s IH]; cbn [Py.lstrip app].
  - by rewrite H.
  - destruct (Py.isspace x); done.
Qed.

Lemma strip_snoc_space (s : str) (c : ascii) :
  Py.isspace c = true → Py.strip (s ++ [c]) = Py.strip s.
Proof.
  intros H. unfold Py.strip. rewrite lstrip_snoc_space by done.
  destruct (Py.lstrip s) eqn:E; [done|]. by rewrite rstrip_snoc_space.
Qed.

Lemma lines_from_shape (cur s : str) :
  NL ∉ cur →
  Forall (λ l, ∃ body, (NL ∉ body) ∧ (l = body ++ [NL] ∨ l = body)) (lines_from cur s).
Proof.
  revert cur. induction s as [|c s IH]; intros cur Hcur; cbn [lines_from].
  - destruct cur as [|x cur]; [done|]. constructor; [|done].
    exists (reverse (x :: cur)). rewrite elem_of_reverse. auto.
  - destruct (Ascii.eqb c NL) eqn:E.
    + apply Ascii.eqb_eq in E as ->. constructor.
      * exists (reverse cur). rewrite elem_of_reverse, reverse_cons. auto.
      * apply IH. apply not_elem_of_nil.
    + apply IH. apply Ascii.eqb_neq in E. rewrite elem_of_cons. intros [?|?]; done.
Qed.

Lemma candidates_no_newline (s : str) :
  Forall (λ l, NL ∉ l) (candidates (readlines s)).
Proof.
  unfold candidates, readlines. apply Forall_forall. intros l Hl.
  apply list_elem_of_filter in Hl as [_ Hl]. apply list_elem_of_fmap in Hl as (raw & -> & Hraw).
  pose proof (lines_from_shape [] s (not_elem_of_nil _)) as Hshape.
  rewrite Forall_forall in Hshape. destruct (Hshape raw Hraw) as (body & Hb & [->| ->]).
  - rewrite strip_snoc_space by done. intros H%strip_elem. done.
  - intros H%strip_elem. done.
Qed.

(** ** The archive reader and the report generator, step by step *)

Section GeneratorFacts.

Variable json_loads : str → option exn.

Local Abbreviation ok := (parses json_loads).
Local Abbreviation bad := (malformed json_loads).

Lemma extract_open_fails (p : str) (st : State) (e : exn) :
  gzip_open (world st) p = inl e →
  extract_mjai_log json_loads p st = (None, printed st [extract_error p e]).
Proof. intros H. unfold extract_mjai_log. run. by rewrite H. Qed.

Lemma extract_stream (p : str) (st : State) (todo : list str) (ending : option exn) :
  gzip_open (world st) p = inr (todo, ending) →
  extract_mjai_log json_loads p st
  = let r := extract_loop json_loads p todo [] st in
    match r.1, ending with
    | inl e, _ | inr _, Some e => (None, printed r.2 [extract_error p e])
    | inr lines, None => (Some (Py.join [NL] lines), r.2)
    end.
Proof.
  intros H. unfold extract_mjai_log. run. rewrite H. cbn zeta.
  destruct (extract_loop json_loads p todo [] st) as [[e|lines] st1]; cbn [fst snd];
    [done|]. by destruct ending.
Qed.

Lemma write_text_writable (w : World) (p text : str) :
  writable w p → write_text w p text = inr (with_file w p text).
Proof.
  intros [H1 H2]. unfold write_text.
  rewrite !bool_decide_eq_false_2 by done. done.
Qed.

Lemma generate_extract_fails (p tp : str) (od : option str) (st st1 : State) :
  extract_mjai_log json_loads p st = (None, st1) →
  generate_html_file json_loads p tp od st = (None, st1).
Proof. intros H. unfold generate_html_file. run. by rewrite H. Qed.

Lemma generate_run (p tp : str) (od : option str) (st st1 : State) (data : str) :
  extract_mjai_log json_loads p st = (Some data, st1) →
  generate_html_file json_loads p tp od st
  = match read_text (world st1) tp with
    | inl e => (None, printed st1 [template_error tp e])
    | inr t =>
        match splice t data with
        | None => (None, printed st1 [markers_error tp])
        | Some new =>
            let out := output_path_of p od in
            match write_text (world st1) out new with
            | inl e => (None, printed st1 [write_error out e])
            | inr w' => (Some out, moved st1 w' [generated_note out])
            end
        end
    end.
Proof.
  intros H. unfold generate_html_file. run. rewrite H. cbn [fst snd].
  destruct (read_text (world st1) tp) as [e|t]; [done|].
  destruct (splice t data) as [new|]; [|done]. cbn zeta. run.
  destruct (write_text (world st1) (output_path_of p od) new) as [e|w'];
    cbn [fst snd world stdout]; [done|].
  unfold moved. cbn. done.
Qed.

Lemma extract_readable (p : str) (st : State) (t : str) :
  files (world st) !! p = Some (GzipText t) →
  Forall (λ l, ok l ∨ bad l) (archive_lines t) →
  extract_mjai_log json_loads p st
  = (Some (Py.join [NL] (filter ok (archive_lines t))),
     printed st (skip_warning p <$> filter bad (archive_lines t))).
Proof.
  intros Hf Hall.
  rewrite (extract_stream p st (readlines (universal_newlines t)) None)
    by (unfold gzip_open; by rewrite Hf).
  cbn zeta.
  destruct (extract_loop_run json_loads p (readlines (universal_newlines t)) [] st)
    as (ws & _ & Hres & Hst).
  destruct Hres as [(e & l & He & Hl & Hle & Hne)|(_ & Hr & ->)].
  - exfalso. rewrite Forall_forall in Hall.
    destruct (Hall l Hl) as [H|H]; unfold parses, malformed in H; congruence.
  - rewrite Hr, Hst. done.
Qed.

Lemma extract_unreadable (p : str) (st : State) :
  unreadable (world st) p →
  ∃ e warnings,
    extract_mjai_log json_loads p st
    = (None, printed st (warnings ++ [extract_error p e]))
    ∧ Forall (λ line, ∃ l, line = skip_warning p l) warnings
    ∧ ∀ e', gzip_open (world st) p = inl e' → e = e' ∧ warnings = [].
Proof.
  intros Hu. destruct (gzip_open (world st) p) as [e|[todo ending]] eqn:Hg.
  - exists e, []. rewrite (extract_open_fails p st e Hg). split; [done|].
    split; [done|]. intros e' [= ->]. done.
  - rewrite (extract_stream p st todo ending Hg). cbn zeta.
    destruct (extract_loop_run json_loads p todo [] st) as (ws & Hws & Hres & Hst).
    assert (Forall (λ line, ∃ l, line = skip_warning p l) ws) as Hws'.
    { eapply Forall_impl; [exact Hws|]. cbn. intros x (l & _ & _ & ->). eauto. }
    assert (∃ e, ending = Some e) as [e0 ->].
    { unfold gzip_open in Hg. destruct (files (world st) !! p) as [[]|] eqn:Hf;
        try (injection Hg as <- <-; eauto); try discriminate.
      by destruct (Hu text). }
    destruct Hres as [(e & l & He & _)|(_ & Hr & _)].
    + exists e, ws. rewrite He, Hst, printed_printed. done.
    + exists e0, ws. rewrite Hr, Hst, printed_printed. done.
Qed.

End GeneratorFacts.

(** ** Properties of the archive reader and of the report generator *)

Lemma split_lines_from_app (cur l rest : str) :
  NL ∉ l →
  split_lines_from cur (l ++ rest) = split_lines_from (reverse l ++ cur) rest.
Proof.
  revert cur. induction l as [|c l IH]; intros cur Hl; cbn [app split_lines_from].
  - done.
  - apply not_elem_of_cons in Hl as [Hc Hl].
    destruct (Ascii.eqb c NL) eqn:E; [apply Ascii.eqb_eq in E; congruence|].
    rewrite IH by done. by rewrite reverse_cons, <- app_assoc.
Qed.

Lemma split_lines_join (kept : list str) :
  kept ≠ [] → Forall (λ l, NL ∉ l) kept →
  split_lines (Py.join [NL] kept) = kept.
Proof.
  unfold split_lines. induction kept as [|l kept IH]; [done|]. intros _ Hall.
  apply Forall_cons in Hall as [Hl Hall]. destruct kept as [|l' kept].
  - cbn [Py.join]. rewrite <- (app_nil_r l) at 1. rewrite split_lines_from_app by done.
    cbn. by rewrite app_nil_r, reverse_involutive.
  - change (Py.join [NL] (l :: l' :: kept)) with (l ++ NL :: Py.join [NL] (l' :: kept)).
    rewrite split_lines_from_app by done. cbn [split_lines_from].
    rewrite Ascii.eqb_refl, app_nil_r, reverse_involutive. f_equal. by apply IH.
Qed.

Lemma filter_all {A} (P : A → Prop) `{!∀ x, Decision (P x)} (l : list A) :
  Forall P l → filter P l = l.
Proof.
  induction 1 as [|x l Hx _ IH]; [done|]. by rewrite filter_cons_True, IH.
Qed.

Lemma filter_none {A} (P : A → Prop) `{!∀ x, Decision (P x)} (l : list A) :
  Forall (λ x, ¬ P x) l → filter P l = [].
Proof.
  induction 1 as [|x l Hx _ IH]; [done|]. by rewrite filter_cons_False.
Qed.

Section ReaderProperties.

Variable json_loads : str → option exn.

Local Abbreviation ok := (parses json_loads).
Local Abbreviation bad := (malformed json_loads).

(** C7, as the code has it: for an archive that is read to its end and on
    each of whose non-blank lines [json.loads] either succeeds or raises
    [JSONDecodeError], the payload is made of the stripped, non-blank lines of
    the archive that parse, unchanged and in the order of the file, joined by
    one newline; each of its lines parses; and each line that does not parse
    is left out and reported by a diagnostic that names the archive and shows
    the first 100 characters of the line. *)
Theorem payload_is_the_valid_lines (p : str) (st : State) (t : str) :
  files (world st) !! p = Some (GzipText t) →
  Forall (λ l, ok l ∨ bad l) (archive_lines t) →
  ∃ kept dropped,
    kept = filter ok (archive_lines t)
    ∧ dropped = filter bad (archive_lines t)
    ∧ extract_mjai_log json_loads p st
      = (Some (Py.join [NL] kept), printed st (skip_warning p <$> dropped))
    ∧ (kept ≠ [] → split_lines (Py.join [NL] kept) = kept)
    ∧ Forall ok kept
    ∧ kept `sublist_of` (Py.strip <$> readlines (universal_newlines t))
    ∧ ∀ l, l ∈ archive_lines t → bad l →
        (l ∉ kept)
        ∧ lit "Warning: Skipping invalid JSON line in " ++ p ++ lit ": "
            ++ take 100 l ++ lit "..."
          ∈ stdout (extract_mjai_log json_loads p st).2.
Proof.
  intros Hf Hall. eexists _, _. split; [reflexivity|]. split; [reflexivity|].
  rewrite (extract_readable json_loads p st t Hf Hall).
  split; [done|]. split; [|split; [|split]].
  - intros Hne. apply split_lines_join; [done|].
    apply Forall_forall. intros l Hl. apply list_elem_of_filter in Hl as [_ Hl].
    pose proof (candidates_no_newline (universal_newlines t)) as Hnl.
    rewrite Forall_forall in Hnl. by apply Hnl.
  - apply Forall_forall. intros l Hl. by apply list_elem_of_filter in Hl as [? _].
  - etrans; [apply sublist_filter|]. unfold archive_lines, candidates.
    apply sublist_filter.
  - intros l Hl Hbad. split.
    + intros Hk. apply list_elem_of_filter in Hk as [Hk _].
      unfold parses, malformed in *. congruence.
    + cbn [snd stdout printed]. apply elem_of_app. right.
      apply list_elem_of_fmap. exists l. split; [done|].
      by apply list_elem_of_filter.
Qed.

(** C8: for an archive that cannot be opened, decompressed or decoded, the
    reader returns [None] after a diagnostic that names the archive and the
    cause, and the report generator returns [None] in the same state: the
    file system is as it was, and no file was written. *)
Theorem unreadable_archive_fails (p tp : str) (od : option str) (st : State) :
  unreadable (world st) p →
  ∃ e warnings,
    extract_mjai_log json_loads p st
    = (None, printed st (warnings ++ [lit "Error extracting " ++ p ++ lit ": "
                                       ++ str_exn e]))
    ∧ generate_html_file json_loads p tp od st
      = extract_mjai_log json_loads p st
    ∧ world (generate_html_file json_loads p tp od st).2 = world st
    ∧ Forall (λ line, ∃ l, line = skip_warning p l) warnings
    ∧ ∀ e', gzip_open (world st) p = inl e' → e = e' ∧ warnings = [].
Proof.
  intros Hu. destruct (extract_unreadable json_loads p st Hu) as (e & ws & He & Hws & Hopen).
  exists e, ws. split; [exact He|].
  rewrite (generate_extract_fails json_loads p tp od st _ He). rewrite He. done.
Qed.

(** C10, as the code has it: for an archive that is read to its end and
    holds only blank lines and lines that [json.loads] rejects with
    [JSONDecodeError], the reader returns the empty string, not [None], and
    the report generator goes on: with a readable template that holds both
    markers and an output path that can be written, it writes the report
    whose injected span is empty and returns its path. *)
Theorem empty_payload_is_success (p tp : str) (od : option str) (st : State)
    (t tt : str) (i j : nat) :
  files (world st) !! p = Some (GzipText t) →
  Forall bad (archive_lines t) →
  read_text (world st) tp = inr tt →
  first_occurrence start_marker tt i →
  first_occurrence end_marker tt j →
  writable (world st) (output_path_of p od) →
  let warnings := skip_warning p <$> archive_lines t in
  let out := output_path_of p od in
  extract_mjai_log json_loads p st = (Some [], printed st warnings)
  ∧ generate_html_file json_loads p tp od st
    = (Some out,
       moved st
         (with_file (world st) out (take (i + length start_marker) tt ++ drop j tt))
         (warnings ++ [lit "Generated: " ++ out])).
Proof.
  intros Hf Hbad Hr Hi Hj Hw warnings out.
  assert (Forall (λ l, ok l ∨ bad l) (archive_lines t)) as Hall
    by (eapply Forall_impl; [exact Hbad|]; cbn; auto).
  assert (filter ok (archive_lines t) = []) as Hk.
  { apply filter_none. eapply Forall_impl; [exact Hbad|]. cbn.
    unfold parses, malformed. congruence. }
  assert (filter bad (archive_lines t) = archive_lines t) as Hd
    by (by apply filter_all).
  pose proof (extract_readable json_loads p st t Hf Hall) as He.
  rewrite Hk, Hd in He. cbn [Py.join] in He. split; [exact He|].
  rewrite (generate_run json_loads p tp od st _ _ He). cbn [printed world].
  rewrite Hr.
  rewrite (splice_found tt [] i j) by (by apply find_first_occurrence).
  cbn zeta. rewrite write_text_writable by done.
  unfold moved, printed. cbn. by rewrite <- app_assoc.
Qed.

(** C4, as the code has it: splicing fails exactly when a marker is absent
    from the template, and then the report generator returns [None] after a
    diagnostic that names the template path; when both markers occur,
    splicing succeeds, whatever their order. *)
Theorem markers_checked_for_presence (p tp : str) (od : option str)
    (st st1 : State) (data t : str) :
  extract_mjai_log json_loads p st = (Some data, st1) →
  read_text (world st1) tp = inr t →
  (splice t data = None ↔ absent start_marker t ∨ absent end_marker t)
  ∧ (absent start_marker t ∨ absent end_marker t →
     generate_html_file json_loads p tp od st
     = (None, printed st1 [lit "Error: Could not find template markers in " ++ tp]))
  ∧ (∀ i j, first_occurrence start_marker t i → first_occurrence end_marker t j →
     splice t data = Some (take (i + length start_marker) t ++ data ++ drop j t)).
Proof.
  intros He Hr. split; [apply splice_None|]. split.
  - intros Habs. rewrite (generate_run json_loads p tp od st _ _ He), Hr.
    by rewrite (proj2 (splice_None t data) Habs).
  - intros i j Hi Hj. apply splice_found; by apply find_first_occurrence.
Qed.

End ReaderProperties.

(** *** Runs on the small file system *)

Lemma payload_is_the_valid_lines_witness :
  files (world demo_state) !! lit "logs/game.json.gz" = Some (GzipText demo_archive_text)
  ∧ Forall (λ l, parses Json.loads l ∨ malformed Json.loads l)
      (archive_lines demo_archive_text)
  ∧ extract_mjai_log Json.loads (lit "logs/game.json.gz") demo_state
    = (Some (lit "{}" ++ [NL] ++ lit "[1, 2]"),
       printed demo_state
         [lit "Warning: Skipping invalid JSON line in logs/game.json.gz: {bad json..."]).
Proof.
  assert (files (world demo_state) !! lit "logs/game.json.gz"
          = Some (GzipText demo_archive_text)) as H1 by (vm_compute; reflexivity).
  assert (Forall (λ l, parses Json.loads l ∨ malformed Json.loads l)
            (archive_lines demo_archive_text)) as H2
    by (apply (bool_decide_unpack _); vm_compute; exact I).
  split; [exact H1|]. split; [exact H2|].
  destruct (payload_is_the_valid_lines Json.loads (lit "logs/game.json.gz")
              demo_state demo_archive_text H1 H2)
    as (kept & dropped & -> & -> & -> & _).
  vm_compute. reflexivity.
Defined.

Lemma unreadable_archive_fails_witness :
  unreadable (world demo_state) (lit "logs/junk.json.gz")
  ∧ generate_html_file Json.loads (lit "logs/junk.json.gz")
      (lit "index.example.html") None demo_state
    = (None,
       printed demo_state
         [lit "Error extracting logs/junk.json.gz: Not a gzipped file"])
  ∧ unreadable (world demo_state) (lit "logs/cut.json.gz")
  ∧ generate_html_file Json.loads (lit "logs/cut.json.gz")
      (lit "index.example.html") None demo_state
    = (None,
       printed demo_state
         [lit "Warning: Skipping invalid JSON line in logs/cut.json.gz: {bad...";
          lit "Error extracting logs/cut.json.gz: Compressed file ended before the end-of-stream marker was reached"]).
Proof.
  assert (unreadable (world demo_state) (lit "logs/junk.json.gz")) as H
    by (intros t; vm_compute; discriminate).
  assert (unreadable (world demo_state) (lit "logs/cut.json.gz")) as H'
    by (intros t; vm_compute; discriminate).
  split; [exact H|].
  destruct (unreadable_archive_fails Json.loads (lit "logs/junk.json.gz")
              (lit "index.example.html") None demo_state H)
    as (e & ws & _ & -> & _).
  split; [vm_compute; reflexivity|]. split; [exact H'|].
  destruct (unreadable_archive_fails Json.loads (lit "logs/cut.json.gz")
              (lit "index.example.html") None demo_state H')
    as (e' & ws' & _ & -> & _).
  vm_compute. reflexivity.
Defined.

Lemma empty_payload_is_success_witness :
  files (world demo_state) !! lit "logs/blank.json.gz" = Some (GzipText demo_blank_text)
  ∧ Forall (malformed Json.loads) (archive_lines demo_blank_text)
  ∧ read_text (world demo_state) (lit "index.example.html") = inr demo_template
  ∧ first_occurrence start_marker demo_template 8
  ∧ first_occurrence end_marker demo_template 26
  ∧ writable (world demo_state) (output_path_of (lit "logs/blank.json.gz") None)
  ∧ extract_mjai_log Json.loads (lit "logs/blank.json.gz") demo_state
    = (Some [],
       printed demo_state
         [lit "Warning: Skipping invalid JSON line in logs/blank.json.gz: {bad..."])
  ∧ (generate_html_file Json.loads (lit "logs/blank.json.gz")
       (lit "index.example.html") None demo_state).1
    = Some (lit "logs/blank.html")
  ∧ files (world (generate_html_file Json.loads (lit "logs/blank.json.gz")
                    (lit "index.example.html") None demo_state).2)
    !! lit "logs/blank.html"
    = Some (Utf8Text (lit "<script>" ++ start_marker ++ end_marker ++ lit "</script>")).
Proof.
  assert (files (world demo_state) !! lit "logs/blank.json.gz"
          = Some (GzipText demo_blank_text)) as H1 by (vm_compute; reflexivity).
  assert (Forall (malformed Json.loads) (archive_lines demo_blank_text)) as H2
    by (apply (bool_decide_unpack _); vm_compute; exact I).
  assert (read_text (world demo_state) (lit "index.example.html") = inr demo_template)
    as H3 by (vm_compute; reflexivity).
  assert (first_occurrence start_marker demo_template 8) as H4
    by (apply find_first_occurrence; vm_compute; reflexivity).
  assert (first_occurrence end_marker demo_template 26) as H5
    by (apply find_first_occurrence; vm_compute; reflexivity).
  assert (writable (world demo_state) (output_path_of (lit "logs/blank.json.gz") None))
    as H6 by (split; apply (bool_decide_unpack _); vm_compute; exact I).
  do 6 (split; [assumption|]).
  destruct (empty_payload_is_success Json.loads (lit "logs/blank.json.gz")
              (lit "index.example.html") None demo_state demo_blank_text
              demo_template 8 26 H1 H2 H3 H4 H5 H6) as [-> ->].
  split; [vm_compute; reflexivity|]. split; vm_compute; reflexivity.
Defined.

Lemma markers_checked_for_presence_witness :
  extract_mjai_log Json.loads (lit "logs/game.json.gz") demo_state
  = (Some (lit "{}" ++ [NL] ++ lit "[1, 2]"),
     printed demo_state
       [lit "Warning: Skipping invalid JSON line in logs/game.json.gz: {bad json..."])
  ∧ read_text (world demo_state) (lit "broken.html") = inr broken_template
  ∧ absent end_marker broken_template
  ∧ generate_html_file Json.loads (lit "logs/game.json.gz") (lit "broken.html")
      None demo_state
    = (None,
       printed demo_state
         [lit "Warning: Skipping invalid JSON line in logs/game.json.gz: {bad json...";
          lit "Error: Could not find template markers in broken.html"]).
Proof.
  assert (extract_mjai_log Json.loads (lit "logs/game.json.gz") demo_state
          = (Some (lit "{}" ++ [NL] ++ lit "[1, 2]"),
             printed demo_state
               [lit "Warning: Skipping invalid JSON line in logs/game.json.gz: {bad json..."]))
    as H1 by (vm_compute; reflexivity).
  assert (read_text (world demo_state) (lit "broken.html") = inr broken_template)
    as H2 by (vm_compute; reflexivity).
  assert (absent end_marker broken_template) as H3
    by (apply find_absent; vm_compute; reflexivity).
  do 3 (split; [assumption|]).
  destruct (markers_checked_for_presence Json.loads (lit "logs/game.json.gz")
              (lit "broken.html") None demo_state _ _ broken_template H1 H2)
    as (_ & Hgen & _).
  rewrite (Hgen (or_intror H3)). vm_compute. reflexivity.
Defined.

(** C4, as stated, fails: in this template the first end marker comes before
    the first start marker, and splicing succeeds all the same. *)
Lemma reversed_markers_accepted :
  first_occurrence end_marker reversed_template 0
  ∧ first_occurrence start_marker reversed_template 49
  ∧ splice reversed_template (lit "[1]")
    = Some (reversed_template ++ lit "[1]" ++ reversed_template)
  ∧ (generate_html_file Json.loads (lit "logs/game.json.gz") (lit "reversed.html")
       None demo_state).1
    = Some (lit "logs/game.html").
Proof.
  split; [apply find_first_occurrence; vm_compute; reflexivity|].
  split; [apply find_first_occurrence; vm_compute; reflexivity|].
  split; vm_compute; reflexivity.
Qed.

(** C7, as stated, fails: this archive is read to its end, its first line is
    a record and its last line is malformed, but on its second line, an
    integer of 5000 digits, [json.loads] raises [ValueError]; the reader
    returns [None], so the record reaches no payload, and the only line
    printed is the error: the malformed line gets no diagnostic. *)
Lemma readable_archive_without_payload :
  files (world long_state) !! lit "logs/long.json.gz"
  = Some (GzipText long_archive_text)
  ∧ ¬ unreadable (world long_state) (lit "logs/long.json.gz")
  ∧ archive_lines long_archive_text = [lit "{}"; long_integer; lit "{bad"]
  ∧ parses JsonLimit.loads (lit "{}")
  ∧ JsonLimit.loads long_integer = Some (JsonLimit.value_error 5000)
  ∧ malformed JsonLimit.loads (lit "{bad")
  ∧ extract_mjai_log JsonLimit.loads (lit "logs/long.json.gz") long_state
    = (None,
       printed long_state
         [extract_error (lit "logs/long.json.gz") (JsonLimit.value_error 5000)])
  ∧ skip_warning (lit "logs/long.json.gz") (lit "{bad")
    ∉ stdout (extract_mjai_log JsonLimit.loads (lit "logs/long.json.gz") long_state).2.
Proof.
  split; [vm_compute; reflexivity|].
  split; [intros H; apply (H long_archive_text); vm_compute; reflexivity|].
  split; [vm_compute; reflexivity|]. split; [vm_compute; reflexivity|].
  split; [vm_compute; reflexivity|]. split; [vm_compute; reflexivity|].
  split; [vm_compute; reflexivity|].
  apply (bool_decide_unpack _). vm_compute. exact I.
Qed.

(** C10, as stated, fails: this archive is read to its end and holds a blank
    line and a line that is not JSON, an integer of 5000 digits followed by a
    letter; on that line [json.loads] raises [ValueError], not
    [JSONDecodeError], so the reader returns [None], not the empty string,
    and the report generator returns [None] and writes no report. *)
Lemma malformed_archive_without_report :
  files (world long_state) !! lit "logs/odd.json.gz" = Some (GzipText long_blank_text)
  ∧ archive_lines long_blank_text = [long_integer_x]
  ∧ Json.loads long_integer_x = Some JSONDecodeError
  ∧ JsonLimit.loads long_integer_x = Some (JsonLimit.value_error 5000)
  ∧ (extract_mjai_log JsonLimit.loads (lit "logs/odd.json.gz") long_state).1 = None
  ∧ generate_html_file JsonLimit.loads (lit "logs/odd.json.gz")
      (lit "index.example.html") None long_state
    = (None,
       printed long_state
         [extract_error (lit "logs/odd.json.gz") (JsonLimit.value_error 5000)])
  ∧ files (world (generate_html_file JsonLimit.loads (lit "logs/odd.json.gz")
                    (lit "index.example.html") None long_state).2)
    !! lit "logs/odd.html" = None.
Proof.
  split; [vm_compute; reflexivity|]. split; [vm_compute; reflexivity|].
  split; [vm_compute; reflexivity|]. split; [vm_compute; reflexivity|].
  split; [vm_compute; reflexivity|]. split; vm_compute; reflexivity.
Qed.

(** ** The name of the output file *)

Lemma endswith_spec (s suf : str) : Py.endswith s suf = true ↔ ends_with s suf.
Proof.
  unfold Py.endswith, ends_with. rewrite andb_true_iff, Nat.leb_le, startswith_spec. split.
  - intros [Hl [r Hr]]. exists (take (length s - length suf) s).
    assert (r = []) as ->.
    { apply (f_equal length) in Hr. rewrite length_drop, length_app in Hr.
      destruct r; [done|]. cbn in Hr. lia. }
    rewrite app_nil_r in Hr.
    rewrite <- (take_drop (length s - length suf) s) at 1. by rewrite Hr.
  - intros [stem ->]. rewrite length_app. split; [lia|]. exists [].
    replace (length stem + length suf - length suf)%nat with (length stem) by lia.
    by rewrite drop_app_length, app_nil_r.
Qed.

Lemma endswith_false (s suf : str) : Py.endswith s suf = false ↔ ¬ ends_with s suf.
Proof. rewrite <- endswith_spec. by destruct (Py.endswith s suf). Qed.

Lemma replace_from_skip (k : nat) (s old new : str) :
  Py.replace_from k s old new = Py.replace_from 0 (drop k s) old new.
Proof.
  revert s. induction k as [|k IH]; intros s; [done|].
  destruct s as [|c s]; [done|]. cbn [Py.replace_from drop]. apply IH.
Qed.

Lemma replace_match (s old new : str) :
  old ≠ [] → Py.startswith s old = true →
  Py.replace s old new = new ++ Py.replace (drop (length old) s) old new.
Proof.
  intros Hne Hs. unfold Py.replace. destruct s as [|c s].
  - apply startswith_spec in Hs as [r Hr]. by destruct old.
  - cbn [Py.replace_from]. rewrite Hs, replace_from_skip.
    destruct old as [|o old]; [done|]. cbn [length drop].
    by replace (S (length old) - 1)%nat with (length old) by lia.
Qed.

Lemma replace_nomatch (c : ascii) (s old new : str) :
  Py.startswith (c :: s) old = false →
  Py.replace (c :: s) old new = c :: Py.replace s old new.
Proof. intros Hs. unfold Py.replace. cbn [Py.replace_from]. by rewrite Hs. Qed.

Lemma replace_first (s old new : str) (k : nat) :
  old ≠ [] → first_occurrence old s k →
  Py.replace s old new
  = take k s ++ new ++ Py.replace (drop (k + length old) s) old new.
Proof.
  intros Hne. revert s. induction k as [|k IH]; intros s [Ho Hf].
  - apply startswith_occurs in Ho. by rewrite replace_match.
  - destruct s as [|c s].
    { destruct Ho as [r Hr]. by destruct old. }
    rewrite replace_nomatch.
    + cbn [take drop Nat.add app]. f_equal. apply IH. split; [done|].
      intros j Hj. rewrite <- (occurs_at_S old c). apply Hf. lia.
    + destruct (Py.startswith (c :: s) old) eqn:E; [|done].
      apply startswith_occurs in E. destruct (Hf 0%nat); [lia|done].
Qed.

Lemma replace_absent (s old new : str) :
  absent old s → Py.replace s old new = s.
Proof.
  induction s as [|c s IH]; intros Ha; [done|]. rewrite replace_nomatch.
  - f_equal. apply IH. intros k Hk. apply (Ha (S k)). by apply occurs_at_S.
  - destruct (Py.startswith (c :: s) old) eqn:E; [|done].
    apply startswith_occurs in E. by destruct (Ha 0%nat).
Qed.

(** [.json.gz] does not overlap itself: after a stem that does not hold it,
    the suffix is its first occurrence. *)
Lemma suffix_is_first_occurrence (stem : str) :
  absent json_gz stem →
  first_occurrence json_gz (stem ++ json_gz) (length stem).
Proof.
  intros Ha. split.
  - exists []. by rewrite drop_app_length, app_nil_r.
  - intros j Hj [r Hr]. rewrite drop_app_le in Hr by lia.
    assert (drop j stem ≠ []) as Hne.
    { intros H%(f_equal length). rewrite length_drop in H. cbn in H. lia. }
    destruct (drop j stem) as [|x1 u] eqn:Hu; [done|]. clear Hne.
    do 7 (destruct u as [|? u]; [discriminate Hr|]).
    apply (Ha j). exists u. rewrite Hu. cbn in Hr. cbn.
    injection Hr as -> -> -> -> -> -> -> -> _. done.
Qed.

Section EntryPoint.

Variable json_loads : str → option exn.
Variable glob : World → str → str → list str.

Lemma main_rejects_other_suffix (args : Args) (st : State) :
  OsPathFs.exists_ (world st) (template args) = true →
  OsPathFs.isfile (world st) (input args) = true →
  ¬ ends_with (input args) json_gz →
  main json_loads glob args st
  = ((1, []), printed st [lit "Error: Input file must be a .json.gz file"]).
Proof.
  intros Ht Hf He%endswith_false. unfold main. run. by rewrite Ht, Hf, He.
Qed.

(** When the name of the archive ends in [.json.gz] and [.json.gz] occurs
    nowhere in the stem before it, the name of the output file is the stem
    followed by [.html].  For a single input file [main] checks the suffix:
    it prints an error and exits with status 1, leaving the file system as it
    was, when the input path does not end in [.json.gz]. *)
Theorem suffix_replaced_by_html (p stem : str) (args : Args) (st : State) :
  (OsPath.basename p = stem ++ json_gz →
   absent json_gz stem →
   html_name_of p = stem ++ html)
  ∧ (OsPathFs.exists_ (world st) (template args) = true →
     OsPathFs.isfile (world st) (input args) = true →
     ¬ ends_with (input args) json_gz →
     main json_loads glob args st
     = ((1, []), printed st [lit "Error: Input file must be a .json.gz file"])).
Proof.
  split; [|apply main_rejects_other_suffix].
  intros Hb Hf%suffix_is_first_occurrence. unfold html_name_of. rewrite Hb.
  rewrite (replace_first _ _ _ (length stem)) by done.
  rewrite take_app_length, drop_ge by (rewrite length_app; lia).
  change (Py.replace [] json_gz html) with (@nil ascii). by rewrite app_nil_r.
Qed.

End EntryPoint.

Lemma suffix_replaced_by_html_witness :
  OsPath.basename (lit "logs/game.json.gz") = lit "game" ++ json_gz
  ∧ absent json_gz (lit "game")
  ∧ html_name_of (lit "logs/game.json.gz") = lit "game" ++ html
  ∧ OsPathFs.exists_ (world demo_state) (template single_file_args) = true
  ∧ OsPathFs.isfile (world demo_state) (input single_file_args) = true
  ∧ ¬ ends_with (input single_file_args) json_gz
  ∧ main Json.loads Glob.glob single_file_args demo_state
    = ((1, []), printed demo_state [lit "Error: Input file must be a .json.gz file"]).
Proof.
  assert (OsPath.basename (lit "logs/game.json.gz") = lit "game" ++ json_gz) as H1
    by (vm_compute; reflexivity).
  assert (absent json_gz (lit "game")) as H2
    by (apply find_absent; vm_compute; reflexivity).
  assert (OsPathFs.exists_ (world demo_state) (template single_file_args) = true) as H3
    by (vm_compute; reflexivity).
  assert (OsPathFs.isfile (world demo_state) (input single_file_args) = true) as H4
    by (vm_compute; reflexivity).
  assert (¬ ends_with (input single_file_args) json_gz) as H5
    by (apply endswith_false; vm_compute; reflexivity).
  destruct (suffix_replaced_by_html Json.loads Glob.glob (lit "logs/game.json.gz")
              (lit "game") single_file_args demo_state) as [Hname Hmain].
  split; [exact H1|]. split; [exact H2|]. split; [exact (Hname H1 H2)|].
  split; [exact H3|]. split; [exact H4|]. split; [exact H5|].
  exact (Hmain H3 H4 H5).
Defined.

(** C1 fails on the code: the report generator replaces [.json.gz] wherever
    it occurs in the name and checks nothing, so for an archive whose name
    does not end in [.json.gz] it reports no error and returns an output
    path, here the path of the archive itself, and in a name that holds
    [.json.gz] twice both occurrences are replaced, not the suffix alone. *)
Lemma other_names_are_not_rejected :
  ¬ ends_with (lit "logs/a.txt.gz") json_gz
  ∧ (generate_html_file Json.loads (lit "logs/a.txt.gz") (lit "index.example.html")
       None demo_state).1
    = Some (lit "logs/a.txt.gz")
  ∧ html_name_of (lit "logs/x.json.gz.json.gz") = lit "x.html.html"
  ∧ lit "x.html.html" ≠ lit "x.json.gz" ++ html.
Proof.
  split; [apply endswith_false; vm_compute; reflexivity|].
  split; [vm_compute; reflexivity|]. split; [vm_compute; reflexivity|].
  vm_compute. discriminate.
Qed.

(** ** The output path and the path of the archive *)

Lemma rfind_sep_absent (s : str) :
  OsPath.sep ∉ s → Py.rfind s [OsPath.sep] = -1.
Proof.
  induction s as [|c s IH]; intros Hs; cbn [Py.rfind]; [done|].
  apply not_elem_of_cons in Hs as [Hc Hs]. rewrite IH by done. cbn [Z.eqb Pos.eqb].
  cbn [Py.startswith]. destruct (Ascii.eqb c OsPath.sep) eqn:E; [|done].
  apply Ascii.eqb_eq in E. congruence.
Qed.

Lemma rfind_sep_last (x h : str) :
  OsPath.sep ∉ h → Py.rfind (x ++ OsPath.sep :: h) [OsPath.sep] = Py.len x.
Proof.
  intros Hh. induction x as [|c x IH]; cbn [app Py.rfind].
  - rewrite rfind_sep_absent by done. cbn [Z.eqb Pos.eqb Py.startswith].
    rewrite Ascii.eqb_refl. by destruct h.
  - rewrite IH. unfold Py.len. cbn [length].
    destruct (Z.eqb_spec (Z.of_nat (length x)) (-1)); lia.
Qed.

Lemma basename_plain (h : str) : OsPath.sep ∉ h → OsPath.basename h = h.
Proof. intros Hh. unfold OsPath.basename. by rewrite rfind_sep_absent. Qed.

Lemma basename_after_sep (x h : str) :
  OsPath.sep ∉ h → OsPath.basename (x ++ OsPath.sep :: h) = h.
Proof.
  intros Hh. unfold OsPath.basename. rewrite rfind_sep_last by done.
  unfold Py.len. replace (Z.of_nat (length x) + 1) with (Z.of_nat (S (length x))) by lia.
  rewrite slice_from_nat.
  replace (S (length x)) with (length x + 1)%nat by lia.
  rewrite <- drop_drop, drop_app_length. done.
Qed.

Lemma path_decompose (p : str) :
  OsPath.sep ∉ p ∨ ∃ x b, p = x ++ OsPath.sep :: b ∧ OsPath.sep ∉ b.
Proof.
  induction p as [|c p IH]; [left; apply not_elem_of_nil|].
  destruct IH as [Hno|(x & b & -> & Hb)].
  - destruct (decide (c = OsPath.sep)) as [->|Hc].
    + right. by exists [], p.
    + left. rewrite elem_of_cons. intros [?|?]; by subst.
  - right. by exists (c :: x), b.
Qed.

(** A path is some head, empty or ended by a slash, and then its base name,
    which holds no slash. *)
Lemma basename_spec (p : str) :
  (OsPath.sep ∉ OsPath.basename p)
  ∧ (p = OsPath.basename p
     ∨ ∃ x, p = x ++ OsPath.sep :: OsPath.basename p).
Proof.
  destruct (path_decompose p) as [Hno|(x & b & -> & Hb)].
  - rewrite basename_plain by done. split; [done|by left].
  - rewrite basename_after_sep by done. split; [done|]. right. by exists x.
Qed.

Lemma join_basename (d h : str) :
  OsPath.sep ∉ h → OsPath.basename (OsPath.join d h) = h.
Proof.
  intros Hh. unfold OsPath.join.
  assert (Py.startswith h [OsPath.sep] = false) as ->.
  { destruct h as [|c h]; [done|]. cbn. apply not_elem_of_cons in Hh as [Hc _].
    destruct (Ascii.eqb c OsPath.sep) eqn:E; [|done].
    apply Ascii.eqb_eq in E. congruence. }
  destruct d as [|c d]; cbn [Py.truthy negb orb]; [by apply basename_plain|].
  destruct (Py.endswith (c :: d) [OsPath.sep]) eqn:E.
  - apply endswith_spec in E as [stem ->]. rewrite <- app_assoc.
    by apply basename_after_sep.
  - by apply (basename_after_sep (c :: d)).
Qed.

Lemma replace_from_elem (x : ascii) (k : nat) (s old new : str) :
  x ∈ Py.replace_from k s old new → x ∈ s ∨ x ∈ new.
Proof.
  revert k. induction s as [|c s IH]; intros k; cbn [Py.replace_from].
  - by intros ?%not_elem_of_nil.
  - destruct k as [|k].
    + destruct (Py.startswith (c :: s) old).
      * rewrite elem_of_app. intros [?|H]; [by right|].
        destruct (IH _ H); [left; by right|by right].
      * rewrite elem_of_cons. intros [->|H]; [left; by left|].
        destruct (IH _ H); [left; by right|by right].
    + intros H. destruct (IH _ H); [left; by right|by right].
Qed.

Lemma replace_from_length (k : nat) (s old new : str) :
  (length new ≤ length old)%nat →
  (length (Py.replace_from k s old new) + k `min` length s ≤ length s)%nat.
Proof.
  intros Hlen. revert k. induction s as [|c s IH]; intros k; cbn [Py.replace_from length].
  - lia.
  - destruct k as [|k].
    + destruct (Py.startswith (c :: s) old) eqn:E.
      * apply startswith_spec in E as [r Hr]. apply (f_equal length) in Hr.
        rewrite length_app in Hr. cbn [length] in Hr.
        specialize (IH (length old - 1)%nat). rewrite length_app. lia.
      * specialize (IH 0%nat). cbn [length]. lia.
    + specialize (IH k). lia.
Qed.

(** Replacing [.json.gz] by [.html] in a name that holds [.json.gz] gives a
    shorter name. *)
Lemma replace_json_gz_shorter (s : str) (k : nat) :
  occurs_at json_gz s k →
  (length (Py.replace s json_gz html) < length s)%nat.
Proof.
  intros Hk.
  assert (∃ k0, first_occurrence json_gz s k0) as [k0 Hk0].
  { destruct (find_range s json_gz) as [Hm|Hr].
    - apply find_absent in Hm. by destruct (Hm k).
    - exists (Z.to_nat (Py.find s json_gz)). apply find_first_occurrence. lia. }
  rewrite (replace_first s json_gz html k0) by done.
  pose proof (occurs_at_bound _ _ _ (proj1 Hk0) ltac:(done)) as Hb.
  pose proof (replace_from_length 0 (drop (k0 + length json_gz) s) json_gz html
                ltac:(cbn; lia)) as Hl.
  fold (Py.replace (drop (k0 + length json_gz) s) json_gz html) in Hl.
  rewrite length_drop in Hl. rewrite !length_app, length_take.
  change (length html) with 5%nat. change (length json_gz) with 8%nat in *. lia.
Qed.

(** For an archive whose name holds [.json.gz], the output path is not the
    path of the archive, whatever the output directory. *)
Lemma output_path_differs (p : str) (od : option str) (k : nat) :
  occurs_at json_gz (OsPath.basename p) k →
  output_path_of p od ≠ p.
Proof.
  intros Hk Heq. destruct (basename_spec p) as [Hno _].
  assert (OsPath.sep ∉ html_name_of p) as Hh.
  { unfold html_name_of, Py.replace. intros [H|H]%replace_from_elem; [done|].
    vm_compute in H. repeat (apply elem_of_cons in H as [H|H]; [discriminate|]).
    by apply not_elem_of_nil in H. }
  apply (f_equal OsPath.basename) in Heq. unfold output_path_of in Heq.
  rewrite join_basename in Heq by done.
  pose proof (replace_json_gz_shorter _ _ Hk) as Hlt.
  unfold html_name_of in Heq. rewrite Heq in Hlt. lia.
Qed.

Lemma suffix_after_sep (a u v w : str) :
  OsPath.sep ∉ w → u ++ OsPath.sep :: v = a ++ w → ∃ r, v = r ++ w.
Proof.
  intros Hw. revert a. induction u as [|c u IH]; intros [|c' a] H; cbn in H.
  - subst w. exfalso. apply Hw. by left.
  - injection H as _ ->. by exists a.
  - subst w. exfalso. apply Hw. right. rewrite elem_of_app. right. by left.
  - injection H as _ H. by apply (IH a).
Qed.

(** A path that ends in [.json.gz] has a name that ends in [.json.gz]. *)
Lemma basename_ends_with_json_gz (p : str) :
  ends_with p json_gz → ends_with (OsPath.basename p) json_gz.
Proof.
  intros [stem Hp]. destruct (basename_spec p) as [Hno [Hb|[x Hx]]].
  - rewrite <- Hb. by exists stem.
  - rewrite Hx in Hp. apply suffix_after_sep in Hp; [done|].
    vm_compute. intros H. repeat (apply elem_of_cons in H as [H|H]; [discriminate|]).
    by apply not_elem_of_nil in H.
Qed.

(** So a single input file accepted by [main], and every file found with
    the default pattern, is never written over by its own report. *)
Lemma output_path_differs_for_json_gz (p : str) (od : option str) :
  ends_with p json_gz → output_path_of p od ≠ p.
Proof.
  intros [stem Hs]%basename_ends_with_json_gz.
  apply (output_path_differs p od (length stem)).
  exists []. by rewrite Hs, drop_app_length, app_nil_r.
Qed.

(** ** The batch coordinator *)

Lemma moved_moved (st : State) (w1 w2 : World) (l1 l2 : list str) :
  moved (moved st w1 l1) w2 l2 = moved st w2 (l1 ++ l2).
Proof. unfold moved. cbn. by rewrite app_assoc. Qed.

Lemma moved_same (st : State) : moved st (world st) [] = st.
Proof. destruct st. unfold moved. cbn. by rewrite app_nil_r. Qed.

Lemma printed_moved (st : State) (l : list str) : printed st l = moved st (world st) l.
Proof. done. Qed.

(** Case analysis on whether the path looked up is the path just handled. *)
Ltac same_path q p :=
  destruct (decide (q = p)) as [->|?];
  [ rewrite (bool_decide_eq_true_2 (p = p)) by done
  | rewrite (bool_decide_eq_false_2 (q = p)) by done ].

(** One turn of the loop that removes the files beyond the limit. *)
Lemma remove_excess_run (p : str) (st : State) :
  ∃ w1 notes,
    remove_excess p st = (tt, moved st w1 notes)
    ∧ dirs w1 = dirs (world st)
    ∧ unwritable w1 = unwritable (world st)
    ∧ unremovable w1 = unremovable (world st)
    ∧ ∀ q, files w1 !! q
           = if bool_decide (q = p) && deletable (world st) q then None
             else files (world st) !! q.
Proof.
  unfold remove_excess, OsPathFs.exists_, OsPathFs.isfile, OsPathFs.isdir,
    remove, deletable. run. cbn beta.
  destruct (Py.endswith p html) eqn:Eh; cbn [andb]; cycle 1.
  { exists (world st), []. rewrite moved_same. do 4 (split; [done|]).
    intros q. same_path q p; [|done]. by rewrite Eh. }
  destruct (bool_decide (p ∈ dirs (world st))) eqn:Ed.
  { rewrite orb_true_r. cbn beta. rewrite Ed. cbn [fst snd world stdout].
    eexists (world st), _. split; [reflexivity|]. do 3 (split; [done|]).
    intros q. same_path q p; [|done]. by rewrite Eh, Ed. }
  rewrite orb_false_r.
  destruct (bool_decide (p ∈ dom (files (world st)))) eqn:Hdom; cbn beta; cycle 1.
  { apply bool_decide_eq_false_1 in Hdom.
    exists (world st), []. rewrite moved_same. do 4 (split; [done|]).
    intros q. same_path q p; [|done].
    apply not_elem_of_dom in Hdom. rewrite Hdom. by destruct (_ && _). }
  apply bool_decide_eq_true_1 in Hdom. rewrite Ed. destruct (bool_decide (p ∈ unremovable (world st))) eqn:Eu.
  { cbn [fst snd world stdout].
    eexists (world st), _. split; [reflexivity|]. do 3 (split; [done|]).
    intros q. same_path q p; [|done]. by rewrite Eh, Ed, Eu. }
  apply elem_of_dom in Hdom as [c Hc]. rewrite Hc. cbn [fst snd world stdout].
  eexists (mkWorld (delete p (files (world st))) _ _ _), _.
  split; [reflexivity|]. do 3 (split; [done|]). cbn [files].
  intros q. same_path q p.
  - rewrite Eh, Ed, Eu. cbn. apply lookup_delete_eq.
  - cbn. by apply lookup_delete_ne.
Qed.

Lemma remove_loop_cons (p : str) (todo : list str) (st : State) :
  remove_loop (p :: todo) st = remove_loop todo (remove_excess p st).2.
Proof. done. Qed.

(** The loop removes the deletable paths of its list and nothing else. *)
Lemma remove_loop_run (todo : list str) (st : State) :
  ∃ w' notes,
    remove_loop todo st = (tt, moved st w' notes)
    ∧ dirs w' = dirs (world st)
    ∧ unwritable w' = unwritable (world st)
    ∧ unremovable w' = unremovable (world st)
    ∧ ∀ q, files w' !! q
           = if bool_decide (q ∈ todo) && deletable (world st) q then None
             else files (world st) !! q.
Proof.
  revert st. induction todo as [|p todo IH]; intros st.
  - exists (world st), []. rewrite moved_same. do 4 (split; [done|]).
    intros q. rewrite bool_decide_eq_false_2 by apply not_elem_of_nil. done.
  - rewrite remove_loop_cons.
    destruct (remove_excess_run p st) as (w1 & n1 & -> & Hd1 & Hw1 & Hu1 & Hf1).
    cbn [snd].
    destruct (IH (moved st w1 n1)) as (w' & n' & -> & Hd & Hw & Hu & Hf).
    cbn [moved world] in *. exists w', (n1 ++ n'). rewrite moved_moved.
    split; [done|]. split; [congruence|]. split; [congruence|]. split; [congruence|].
    intros q. rewrite Hf, Hf1.
    assert (deletable w1 q = deletable (world st) q) as ->
      by (unfold deletable; by rewrite Hd1, Hu1).
    destruct (deletable (world st) q); rewrite ?andb_true_r, ?andb_false_r; [|done].
    repeat case_bool_decide; try done; rewrite elem_of_cons in *; tauto.
Qed.

Lemma enforce_limit_nil (limit : option Z) (st : State) :
  enforce_limit limit [] st = ([], st).
Proof.
  destruct limit as [l|]; [|done]. unfold enforce_limit, limit_exceeded.
  destruct (negb (l =? 0) && (Py.len [] >? l)); [|done].
  unfold Py.slice_from, Py.slice_to. destruct (l <? 0); by rewrite drop_nil, take_nil.
Qed.

Lemma json_gz_ends_with_gz (s : str) : ends_with s json_gz → ends_with s gz.
Proof. intros [stem ->]. exists (stem ++ lit ".json"). by rewrite <- app_assoc. Qed.

Section BatchProperties.

Variable json_loads : str → option exn.
Variable glob : World → str → str → list str.

Lemma process_directory_refuses (input_dir tp : str) (od : option str)
    (pattern : str) (st : State) :
  ¬ ends_with pattern gz →
  process_directory json_loads glob input_dir tp od pattern st
  = ([], printed st [pattern_warning pattern; pattern_error]).
Proof.
  intros Hgz. assert (¬ ends_with pattern json_gz) as Hj
    by (intros H; by apply Hgz, json_gz_ends_with_gz).
  apply endswith_false in Hgz, Hj. unfold process_directory. rewrite Hj, Hgz.
  cbn [negb]. run. unfold printed. cbn. by rewrite <- app_assoc.
Qed.

(** C5: for a pattern that does not end in [.gz], the batch coordinator
    prints a warning and an error and returns the empty result set, and a
    directory run of [main] ends with no report and the file system as it
    was; for a pattern that ends in [.gz] but not in [.json.gz], it prints the
    warning and goes on to enumerate and process the matching files. *)
Theorem unsafe_pattern_refused (args : Args) (st : State) :
  (¬ ends_with (pattern args) gz →
   process_directory json_loads glob (input args) (template args) (output args)
     (pattern args) st
   = ([], printed st [pattern_warning (pattern args); pattern_error])
   ∧ (OsPathFs.exists_ (world st) (template args) = true →
      OsPathFs.isfile (world st) (input args) = false →
      OsPathFs.isdir (world st) (input args) = true →
      main json_loads glob args st
      = ((0, []),
         printed st [pattern_warning (pattern args); pattern_error; summary 0])
      ∧ world (main json_loads glob args st).2 = world st))
  ∧ (ends_with (pattern args) gz → ¬ ends_with (pattern args) json_gz →
     process_directory json_loads glob (input args) (template args) (output args)
       (pattern args) st
     = process_matches json_loads glob (input args) (template args) (output args)
         (pattern args) (printed st [pattern_warning (pattern args)])).
Proof.
  split.
  - intros Hgz. split; [by apply process_directory_refuses|].
    intros Ht Hf Hd.
    assert (main json_loads glob args st
            = ((0, []),
               printed st [pattern_warning (pattern args); pattern_error; summary 0]))
      as Hmain; [|by rewrite Hmain].
    unfold main. run. rewrite Ht, Hf, Hd. cbn [negb].
    rewrite process_directory_refuses by done. cbn [fst snd].
    rewrite enforce_limit_nil. cbn [fst snd length]. unfold printed, summary.
    cbn [world stdout]. by rewrite <- app_assoc.
  - intros Hgz%endswith_spec Hj%endswith_false. unfold process_directory.
    rewrite Hj, Hgz. cbn [negb]. run. done.
Qed.

End BatchProperties.

(** C6, as the code has it: for a result set of [N] reports and a limit [L]
    with [0 < L < N], the result set becomes its first [L] entries, whatever
    the removals do; of the [N - L] paths beyond the limit, those that end in
    [.html], are not directories and can be removed are removed when they
    exist, and no other file is touched, so that every removed path ends in
    [.html] and existed before; and when the paths beyond the limit are
    distinct, existing and removable [.html] files, exactly [N - L] files
    are removed. *)
Theorem limit_truncates_result_set (generated_files : list str) (l : Z) (st : State) :
  0 < l < Py.len generated_files →
  let excess := drop (Z.to_nat l) generated_files in
  let r := enforce_limit (Some l) generated_files st in
  r.1 = take (Z.to_nat l) generated_files
  ∧ Py.len r.1 = l
  ∧ dirs (world r.2) = dirs (world st)
  ∧ (∀ q, files (world r.2) !! q
          = if bool_decide (q ∈ excess) && deletable (world st) q then None
            else files (world st) !! q)
  ∧ (∀ q, q ∈ dom (files (world st)) → q ∉ dom (files (world r.2)) →
          q ∈ excess ∧ ends_with q html)
  ∧ (NoDup excess →
     Forall (λ q, q ∈ dom (files (world st)) ∧ deletable (world st) q = true) excess →
     (size (files (world r.2)) + length excess = size (files (world st)))%nat
     ∧ Z.of_nat (length excess) = Py.len generated_files - l).
Proof.
  intros Hl excess r. unfold Py.len in Hl.
  assert (r = (take (Z.to_nat l) generated_files, (remove_loop excess st).2)) as Hr.
  { subst r excess. unfold enforce_limit, limit_exceeded.
    destruct (Z.eqb_spec l 0); [lia|]. unfold Py.len.
    destruct (Z.gtb_spec (Z.of_nat (length generated_files)) l); [|lia].
    cbn [negb andb]. unfold Py.slice_from, Py.slice_to.
    destruct (Z.ltb_spec l 0); [lia|]. run. done. }
  destruct (remove_loop_run excess st) as (w' & notes & Hrun & Hd & _ & _ & Hf).
  rewrite Hrun in Hr. cbn [snd] in Hr. rewrite Hr. cbn [fst snd moved world].
  split; [done|]. split; [unfold Py.len; rewrite length_take; lia|].
  split; [done|]. split; [done|]. split.
  - intros q Hin Hout. apply not_elem_of_dom in Hout. rewrite Hf in Hout.
    apply elem_of_dom in Hin as [c Hc]. rewrite Hc in Hout.
    destruct (bool_decide (q ∈ excess)) eqn:Eq; [|done].
    apply bool_decide_eq_true_1 in Eq. split; [done|].
    unfold deletable in Hout. apply endswith_spec.
    destruct (Py.endswith q html); [done|]. cbn in Hout. congruence.
  - intros Hnd Hall. rewrite Forall_forall in Hall.
    assert (dom (files w') = dom (files (world st)) ∖ list_to_set excess) as Hdom.
    { apply set_eq. intros q. rewrite elem_of_difference, elem_of_list_to_set.
      rewrite !elem_of_dom, Hf. destruct (decide (q ∈ excess)) as [Hq|Hq].
      - rewrite bool_decide_eq_true_2 by done. destruct (Hall q Hq) as [_ ->].
        cbn. split; [by intros [? ?]|tauto].
      - rewrite bool_decide_eq_false_2 by done. cbn. tauto. }
    assert (length excess ≤ size (files (world st)))%nat as Hle.
    { rewrite <- size_dom, <- (size_list_to_set (C:=gset str) excess) by done.
      apply subseteq_size. intros q Hq%elem_of_list_to_set. by apply Hall. }
    split.
    + rewrite <- !size_dom, Hdom, size_difference.
      * rewrite size_list_to_set by done. rewrite size_dom. lia.
      * intros q Hq%elem_of_list_to_set. by apply Hall.
    + subst excess. unfold Py.len. rewrite length_drop. lia.
Qed.

(** ** The report as a function of the archive and of the template *)

Lemma with_file_twice (w : World) (p text1 text2 : str) :
  with_file (with_file w p text1) p text2 = with_file w p text2.
Proof. unfold with_file. cbn. by rewrite insert_insert_eq. Qed.

Lemma write_text_result (w : World) (p text : str) :
  (writable w p ∧ write_text w p text = inr (with_file w p text))
  ∨ (¬ writable w p ∧ ∃ e, write_text w p text = inl e).
Proof.
  unfold write_text, writable. repeat case_bool_decide; eauto; right; split; eauto; tauto.
Qed.

Section Determinism.

Variable json_loads : str → option exn.

Lemma extract_loop_result (p : str) (todo acc : list str) (st1 st2 : State) :
  (extract_loop json_loads p todo acc st1).1
  = (extract_loop json_loads p todo acc st2).1.
Proof.
  revert acc st1 st2. induction todo as [|line todo IH]; intros acc st1 st2; [done|].
  destruct (decide (Py.strip line = [])) as [Hs|Hs].
  { rewrite !extract_loop_blank by done. apply IH. }
  destruct (json_loads (Py.strip line)) as [e|] eqn:Ej.
  - destruct (decide (e = JSONDecodeError)) as [->|Hne].
    + rewrite !extract_loop_skip by done. apply IH.
    + by rewrite !(extract_loop_raise _ _ _ _ _ _ e).
  - rewrite !extract_loop_keep by done. apply IH.
Qed.

Lemma extract_world (p : str) (st : State) :
  world (extract_mjai_log json_loads p st).2 = world st.
Proof.
  destruct (gzip_open (world st) p) as [e|[todo ending]] eqn:Hg.
  - by rewrite (extract_open_fails json_loads p st e Hg).
  - rewrite (extract_stream json_loads p st todo ending Hg). cbn zeta.
    destruct (extract_loop_run json_loads p todo [] st) as (ws & _ & _ & Hst).
    destruct (extract_loop json_loads p todo [] st) as [[e|lines] st1];
      cbn [fst snd] in *; subst st1; [done|]. by destruct ending.
Qed.

Lemma extract_result (p : str) (st1 st2 : State) :
  files (world st1) !! p = files (world st2) !! p →
  (extract_mjai_log json_loads p st1).1 = (extract_mjai_log json_loads p st2).1.
Proof.
  intros Hp.
  assert (∀ st todo ending, gzip_open (world st) p = inr (todo, ending) →
            (extract_mjai_log json_loads p st).1
            = match (extract_loop json_loads p todo [] st1).1, ending with
              | inl _, _ | inr _, Some _ => None
              | inr lines, None => Some (Py.join [NL] lines)
              end) as Hs.
  { intros st todo ending Hg. rewrite (extract_stream json_loads p st todo ending Hg).
    cbn zeta. rewrite (extract_loop_result p todo [] st st1).
    destruct (extract_loop json_loads p todo [] st1).1; [done|].
    by destruct ending. }
  destruct (files (world st1) !! p) as [c|] eqn:H1.
  - assert (∃ todo ending, gzip_open (world st1) p = inr (todo, ending)
                           ∧ gzip_open (world st2) p = inr (todo, ending))
      as (todo & ending & Hg1 & Hg2)
      by (unfold gzip_open; rewrite <- Hp, H1; destruct c; eauto).
    by rewrite (Hs st1 _ _ Hg1), (Hs st2 _ _ Hg2).
  - rewrite (extract_open_fails json_loads p st1 (missing (world st1) p))
      by (unfold gzip_open; by rewrite H1).
    rewrite (extract_open_fails json_loads p st2 (missing (world st2) p))
      by (unfold gzip_open; by rewrite <- Hp).
    done.
Qed.

(** What a run of the report generator does to the file system. *)
Lemma generate_shape (p tp : str) (od : option str) (st : State) :
  let r := generate_html_file json_loads p tp od st in
  (r.1 = None ∧ world r.2 = world st)
  ∨ (∃ new, r.1 = Some (output_path_of p od)
            ∧ writable (world st) (output_path_of p od)
            ∧ world r.2 = with_file (world st) (output_path_of p od) new).
Proof.
  cbn zeta. pose proof (extract_world p st) as Hw.
  destruct (extract_mjai_log json_loads p st) as [[data|] st1] eqn:He; cbn [snd] in Hw.
  - rewrite (generate_run json_loads p tp od st st1 data He).
    destruct (read_text (world st1) tp) as [e|t]; [left; by rewrite <- Hw|].
    destruct (splice t data) as [new|]; [|left; by rewrite <- Hw]. cbn zeta.
    destruct (write_text_result (world st1) (output_path_of p od) new)
      as [[Hok ->]|[_ [e ->]]]; [|left; by rewrite <- Hw].
    right. exists new. rewrite <- Hw. done.
  - rewrite (generate_extract_fails json_loads p tp od st st1 He). left. done.
Qed.

Lemma read_text_result (w1 w2 : World) (tp : str) :
  files w1 !! tp = files w2 !! tp →
  (∃ t, read_text w1 tp = inr t ∧ read_text w2 tp = inr t)
  ∨ (∃ e1 e2, read_text w1 tp = inl e1 ∧ read_text w2 tp = inl e2).
Proof.
  intros H. unfold read_text. rewrite <- H.
  destruct (files w1 !! tp) as [[]|]; eauto.
Qed.

(** The outcome of a run and the report it writes are determined by what
    the archive and the template hold and by whether the output path can be
    written. *)
Lemma generate_determined (p tp : str) (od : option str) (st1 st2 : State) :
  files (world st1) !! p = files (world st2) !! p →
  files (world st1) !! tp = files (world st2) !! tp →
  (writable (world st1) (output_path_of p od)
   ↔ writable (world st2) (output_path_of p od)) →
  let r1 := generate_html_file json_loads p tp od st1 in
  let r2 := generate_html_file json_loads p tp od st2 in
  r1.1 = r2.1
  ∧ ∀ out, r1.1 = Some out →
      out = output_path_of p od
      ∧ ∃ text, files (world r1.2) !! out = Some (Utf8Text text)
                ∧ files (world r2.2) !! out = Some (Utf8Text text).
Proof.
  intros Hp Ht Hw. cbn zeta.
  pose proof (extract_result p st1 st2 Hp) as Hres.
  pose proof (extract_world p st1) as Hw1. pose proof (extract_world p st2) as Hw2.
  destruct (extract_mjai_log json_loads p st1) as [d1 s1] eqn:He1.
  destruct (extract_mjai_log json_loads p st2) as [d2 s2] eqn:He2.
  cbn [fst snd] in *. subst d2. destruct d1 as [data|].
  - rewrite (generate_run json_loads p tp od st1 s1 data He1).
    rewrite (generate_run json_loads p tp od st2 s2 data He2).
    rewrite <- Hw1, <- Hw2 in Ht, Hw.
    destruct (read_text_result (world s1) (world s2) tp Ht)
      as [(t & -> & ->)|(e1 & e2 & -> & ->)]; [|done].
    destruct (splice t data) as [new|]; [|done]. cbn zeta.
    destruct (write_text_result (world s1) (output_path_of p od) new)
      as [[Hok1 ->]|[Hno1 [e1 ->]]];
    destruct (write_text_result (world s2) (output_path_of p od) new)
      as [[Hok2 ->]|[Hno2 [e2 ->]]]; try tauto; [|done].
    split; [done|]. intros out [= <-]. split; [done|]. exists new.
    cbn [snd moved world with_file files]. by rewrite !lookup_insert_eq.
  - rewrite (generate_extract_fails json_loads p tp od st1 s1 He1).
    rewrite (generate_extract_fails json_loads p tp od st2 s2 He2). done.
Qed.

(** C9: the outcome of the report generator and the document it writes are
    the same in any two states in which the archive holds the same, the
    template holds the same and the output path is as writable; and when the
    output path is neither the archive nor the template, a second run after
    the first returns the same and leaves every file as the first run left
    it. *)
Theorem report_is_deterministic (p tp : str) (od : option str) (st1 st2 : State) :
  let out := output_path_of p od in
  let r1 := generate_html_file json_loads p tp od st1 in
  (files (world st1) !! p = files (world st2) !! p →
   files (world st1) !! tp = files (world st2) !! tp →
   (writable (world st1) out ↔ writable (world st2) out) →
   let r2 := generate_html_file json_loads p tp od st2 in
   r1.1 = r2.1
   ∧ ∀ out', r1.1 = Some out' →
       out' = out
       ∧ ∃ text, files (world r1.2) !! out = Some (Utf8Text text)
                 ∧ files (world r2.2) !! out = Some (Utf8Text text))
  ∧ (out ≠ p → out ≠ tp →
     let again := generate_html_file json_loads p tp od r1.2 in
     again.1 = r1.1 ∧ world again.2 = world r1.2).
Proof.
  cbn zeta. split.
  - intros Hp Ht Hw. destruct (generate_determined p tp od st1 st2 Hp Ht Hw) as [H1 H2].
    split; [exact H1|]. intros out' Hout. destruct (H2 out' Hout) as (-> & text & ? & ?).
    eauto.
  - intros Hnp Hnt.
    pose proof (generate_shape p tp od st1) as Hshape. cbn zeta in Hshape.
    destruct (generate_html_file json_loads p tp od st1) as [res s1] eqn:Hrun.
    cbn [fst snd] in *.
    assert (files (world st1) !! p = files (world s1) !! p
            ∧ files (world st1) !! tp = files (world s1) !! tp
            ∧ (writable (world st1) (output_path_of p od)
               ↔ writable (world s1) (output_path_of p od))) as (Hp & Ht & Hw).
    { destruct Hshape as [[_ ->]|(new & _ & _ & ->)]; [done|].
      unfold with_file, writable. cbn. by rewrite !lookup_insert_ne. }
    pose proof (generate_determined p tp od st1 s1 Hp Ht Hw) as Hdet.
    cbn zeta in Hdet. rewrite Hrun in Hdet. cbn [fst snd] in Hdet.
    destruct Hdet as [H1 H2]. split; [done|].
    destruct (generate_shape p tp od s1) as [[_ ->]|(new2 & Hs2 & _ & Hw2)]; [done|].
    rewrite <- H1 in Hs2. destruct (H2 _ Hs2) as (_ & text & Hf1 & Hf2).
    rewrite Hw2 in Hf2. unfold with_file in Hf2. cbn in Hf2.
    rewrite lookup_insert_eq in Hf2. injection Hf2 as ->.
    rewrite Hw2.
    destruct Hshape as [[Hn _]|(new1 & _ & _ & Hw1)]; [congruence|].
    rewrite Hw1 in Hf1 |- *. unfold with_file in Hf1. cbn in Hf1.
    rewrite lookup_insert_eq in Hf1. injection Hf1 as ->.
    apply with_file_twice.
Qed.

End Determinism.

(** ** Runs of the batch coordinator on the small file system *)

Lemma unsafe_pattern_refused_witness :
  ¬ ends_with (pattern unsafe_args) gz
  ∧ OsPathFs.exists_ (world demo_state) (template unsafe_args) = true
  ∧ OsPathFs.isfile (world demo_state) (input unsafe_args) = false
  ∧ OsPathFs.isdir (world demo_state) (input unsafe_args) = true
  ∧ main Json.loads Glob.glob unsafe_args demo_state
    = ((0, []),
       printed demo_state
         [lit "Warning: Pattern '*.txt' does not end with .json.gz";
          lit "Error: Will only process compressed files for safety";
          [NL] ++ lit "Successfully generated 0 HTML files"])
  ∧ ends_with (pattern gz_args) gz
  ∧ ¬ ends_with (pattern gz_args) json_gz
  ∧ process_directory Json.loads Glob.glob (input gz_args) (template gz_args)
      (output gz_args) (pattern gz_args) demo_state
    = process_matches Json.loads Glob.glob (input gz_args) (template gz_args)
        (output gz_args) (pattern gz_args)
        (printed demo_state [pattern_warning (pattern gz_args)]).
Proof.
  assert (¬ ends_with (pattern unsafe_args) gz) as H1
    by (apply endswith_false; vm_compute; reflexivity).
  assert (OsPathFs.exists_ (world demo_state) (template unsafe_args) = true) as H2
    by (vm_compute; reflexivity).
  assert (OsPathFs.isfile (world demo_state) (input unsafe_args) = false) as H3
    by (vm_compute; reflexivity).
  assert (OsPathFs.isdir (world demo_state) (input unsafe_args) = true) as H4
    by (vm_compute; reflexivity).
  assert (ends_with (pattern gz_args) gz) as H5
    by (apply endswith_spec; vm_compute; reflexivity).
  assert (¬ ends_with (pattern gz_args) json_gz) as H6
    by (apply endswith_false; vm_compute; reflexivity).
  do 4 (split; [assumption|]).
  destruct (unsafe_pattern_refused Json.loads Glob.glob unsafe_args demo_state)
    as [Hrefuse _].
  destruct (Hrefuse H1) as [_ Hmain]. destruct (Hmain H2 H3 H4) as [Hrun _].
  split; [exact Hrun|]. do 2 (split; [assumption|]).
  destruct (unsafe_pattern_refused Json.loads Glob.glob gz_args demo_state)
    as [_ Hgo].
  exact (Hgo H5 H6).
Defined.

Lemma limit_truncates_result_set_witness :
  0 < 1 < Py.len batch_run.1
  ∧ batch_run.1 = [lit "logs/blank.html"; lit "logs/game.html"]
  ∧ (enforce_limit (Some 1) batch_run.1 batch_run.2).1 = [lit "logs/blank.html"]
  ∧ files (world (enforce_limit (Some 1) batch_run.1 batch_run.2).2)
    !! lit "logs/game.html" = None
  ∧ (size (files (world (enforce_limit (Some 1%Z) batch_run.1 batch_run.2).2)) + 1
     = size (files (world batch_run.2)))%nat.
Proof.
  assert (0 < 1 < Py.len batch_run.1) as H by (vm_compute; split; reflexivity).
  assert (batch_run.1 = [lit "logs/blank.html"; lit "logs/game.html"]) as Hgf
    by (vm_compute; reflexivity).
  split; [exact H|]. split; [exact Hgf|].
  destruct (limit_truncates_result_set batch_run.1 1 batch_run.2 H)
    as (Hres & _ & _ & Hfiles & _ & Hcount).
  split; [rewrite Hres, Hgf; reflexivity|].
  split; [rewrite Hfiles; vm_compute; reflexivity|].
  destruct Hcount as [Hsize _].
  - rewrite Hgf. apply (bool_decide_unpack _). vm_compute. exact I.
  - rewrite Hgf. cbn [drop Z.to_nat Pos.to_nat Pos.iter_op].
    repeat constructor; try (apply (bool_decide_unpack _); vm_compute; exact I);
      vm_compute; reflexivity.
  - rewrite Hgf in Hsize. exact Hsize.
Defined.

(** C6, as stated, fails: with a limit of 0 reports and a result set of
    two, nothing is removed and both entries stay; with a limit of -1 one
    entry stays; and a report beyond the limit that cannot be removed stays
    on disk while the result set is cut to the limit. *)
Lemma limit_not_always_enforced :
  (main Json.loads Glob.glob limit_zero_args demo_state).1
  = (0, [lit "logs/blank.html"; lit "logs/game.html"])
  ∧ is_Some (files (world (main Json.loads Glob.glob limit_zero_args demo_state).2)
             !! lit "logs/blank.html")
  ∧ is_Some (files (world (main Json.loads Glob.glob limit_zero_args demo_state).2)
             !! lit "logs/game.html")
  ∧ (main Json.loads Glob.glob limit_negative_args demo_state).1
    = (0, [lit "logs/blank.html"])
  ∧ (main Json.loads Glob.glob limit_one_args locked_state).1
    = (0, [lit "logs/blank.html"])
  ∧ is_Some (files (world (main Json.loads Glob.glob limit_one_args locked_state).2)
             !! lit "logs/game.html")
  ∧ size (files (world (main Json.loads Glob.glob limit_one_args locked_state).2))
    = (size (files (world locked_state)) + 2)%nat.
Proof.
  split; [vm_compute; reflexivity|].
  split; [vm_compute; eauto|]. split; [vm_compute; eauto|].
  split; [vm_compute; reflexivity|].
  split; [vm_compute; reflexivity|]. split; [vm_compute; eauto|].
  vm_compute. reflexivity.
Qed.

(** C2 fails on the code: on an archive whose name does not hold
    [.json.gz], reached through a pattern that ends in [.gz], the output path
    is the path of the archive, and the report is written over the archive. *)
Theorem archive_overwritten :
  files (world demo_state) !! lit "logs/a.txt.gz" = Some (GzipText (lit "{}"))
  ∧ Glob.glob (world demo_state) (lit "logs") (lit "*.txt.gz") = [lit "logs/a.txt.gz"]
  ∧ output_path_of (lit "logs/a.txt.gz") None = lit "logs/a.txt.gz"
  ∧ (main Json.loads Glob.glob gz_args demo_state).1 = (0, [lit "logs/a.txt.gz"])
  ∧ files (world (main Json.loads Glob.glob gz_args demo_state).2)
    !! lit "logs/a.txt.gz"
    = Some (Utf8Text (lit "<script>" ++ start_marker ++ lit "{}" ++ end_marker
                      ++ lit "</script>")).
Proof.
  split; [vm_compute; reflexivity|]. split; [vm_compute; reflexivity|].
  split; [vm_compute; reflexivity|]. split; vm_compute; reflexivity.
Qed.

Lemma report_is_deterministic_witness :
  let p := lit "logs/game.json.gz" in
  let tp := lit "index.example.html" in
  let out := output_path_of p None in
  let r1 := generate_html_file Json.loads p tp None demo_state in
  files (world demo_state) !! p = files (world batch_run.2) !! p
  ∧ files (world demo_state) !! tp = files (world batch_run.2) !! tp
  ∧ (writable (world demo_state) out ↔ writable (world batch_run.2) out)
  ∧ out ≠ p ∧ out ≠ tp
  ∧ r1.1 = (generate_html_file Json.loads p tp None batch_run.2).1
  ∧ (generate_html_file Json.loads p tp None r1.2).1 = r1.1
  ∧ world (generate_html_file Json.loads p tp None r1.2).2 = world r1.2.
Proof.
  intros p tp out r1.
  assert (files (world demo_state) !! p = files (world batch_run.2) !! p) as H1
    by (vm_compute; reflexivity).
  assert (files (world demo_state) !! tp = files (world batch_run.2) !! tp) as H2
    by (vm_compute; reflexivity).
  assert (writable (world demo_state) out ↔ writable (world batch_run.2) out) as H3
    by (split; intros _; split; apply (bool_decide_unpack _); vm_compute; exact I).
  assert (out ≠ p) as H4 by (vm_compute; discriminate).
  assert (out ≠ tp) as H5 by (vm_compute; discriminate).
  do 5 (split; [assumption|]).
  destruct (report_is_deterministic Json.loads p tp None demo_state batch_run.2)
    as [Hsame Hagain].
  destruct (Hsame H1 H2 H3) as [Heq _]. destruct (Hagain H4 H5) as [Ha1 Ha2].
  split; [exact Heq|]. split; [exact Ha1|exact Ha2].
Defined.

(** * Further properties of the program *)

(** ** The report generator, from end to end *)

Section GeneratorRuns.

Variable json_loads : str → option exn.

Local Abbreviation ok := (parses json_loads).
Local Abbreviation bad := (malformed json_loads).

(** What the archive reader returns and prints, in every case. *)
Lemma extract_shape (p : str) (st : State) :
  ∃ warnings,
    Forall (is_skip_warning p) warnings
    ∧ (((extract_mjai_log json_loads p st).1 = None
        ∧ ∃ e, (extract_mjai_log json_loads p st).2
               = printed st (warnings ++ [extract_error p e]))
       ∨ (is_Some (extract_mjai_log json_loads p st).1
          ∧ (extract_mjai_log json_loads p st).2 = printed st warnings)).
Proof.
  destruct (gzip_open (world st) p) as [e|[todo ending]] eqn:Hg.
  - exists []. split; [done|]. left.
    rewrite (extract_open_fails json_loads p st e Hg). split; [done|]. by exists e.
  - rewrite (extract_stream json_loads p st todo ending Hg). cbn zeta.
    destruct (extract_loop_run json_loads p todo [] st) as (ws & Hws & _ & Hst).
    exists ws. split.
    { eapply Forall_impl; [exact Hws|]. cbn. intros x (l & _ & _ & ->). by exists l. }
    rewrite Hst.
    destruct (extract_loop json_loads p todo [] st).1 as [e|lines].
    + left. split; [done|]. exists e. by rewrite printed_printed.
    + destruct ending as [e|].
      * left. split; [done|]. exists e. by rewrite printed_printed.
      * right. split; [by eexists|done].
Qed.


(** X2: a run of the report generator that returns [None] leaves the file
    system as it was, and the last line it prints is an error message that
    names the path at fault: the archive that could not be read, the template
    that could not be read or holds no markers, or the output path that could
    not be written.  The lines printed before it are warnings about lines
    that were left out. *)
Theorem failure_is_reported (p tp : str) (od : option str) (st : State) :
  (generate_html_file json_loads p tp od st).1 = None →
  world (generate_html_file json_loads p tp od st).2 = world st
  ∧ ∃ warnings msg,
      stdout (generate_html_file json_loads p tp od st).2
      = stdout st ++ warnings ++ [msg]
      ∧ Forall (is_skip_warning p) warnings
      ∧ failure_message p tp od msg.
Proof.
  destruct (extract_shape p st) as (ws & Hws & Hcase).
  destruct (extract_mjai_log json_loads p st) as [[data|] st1] eqn:He;
    cbn [fst snd] in Hcase.
  - destruct Hcase as [[? _]|[_ ->]]; [done|].
    rewrite (generate_run json_loads p tp od st _ _ He). cbn [printed world].
    destruct (read_text (world st) tp) as [e|tt].
    { intros _. split; [done|]. exists ws, (template_error tp e).
      cbn. split; [by rewrite <- app_assoc|]. split; [done|]. right. left. by exists e. }
    destruct (splice tt data) as [new|].
    2:{ intros _. split; [done|]. exists ws, (markers_error tp).
        cbn. split; [by rewrite <- app_assoc|]. split; [done|]. right. right. by left. }
    cbn zeta.
    destruct (write_text (world st) (output_path_of p od) new) as [e|w']; [|done].
    intros _. split; [done|]. exists ws, (write_error (output_path_of p od) e).
    cbn. split; [by rewrite <- app_assoc|]. split; [done|].
    right. right. right. by exists e.
  - destruct Hcase as [[_ [e ->]]|[[? ?] _]]; [|done].
    rewrite (generate_extract_fails json_loads p tp od st _ He). intros _.
    split; [done|]. exists ws, (extract_error p e). cbn.
    split; [done|]. split; [done|]. left. by exists e.
Qed.

(** X3: in a file system without symbolic or hard links, where each path
    string names a file of its own, the report generator changes at most the
    file at its output path, whatever it returns: every other path holds what
    it held, no file is removed, and the directories and the access rights
    stay as they were. *)
Theorem only_the_output_changes (p tp : str) (od : option str) (st : State) :
  let w' := world (generate_html_file json_loads p tp od st).2 in
  (∀ q, q ≠ output_path_of p od → files w' !! q = files (world st) !! q)
  ∧ dom (files (world st)) ⊆ dom (files w')
  ∧ dirs w' = dirs (world st)
  ∧ unwritable w' = unwritable (world st)
  ∧ unremovable w' = unremovable (world st).
Proof.
  cbn zeta. destruct (generate_shape json_loads p tp od st) as [[_ ->]|(new & _ & _ & ->)].
  - done.
  - unfold with_file. cbn. split; [|split; [|done]].
    + intros q Hq. by apply lookup_insert_ne.
    + rewrite dom_insert_L. set_solver.
Qed.

End GeneratorRuns.

(** ** The archive reader: effects and counts *)

Section ReaderEffects.

Variable json_loads : str → option exn.

Local Abbreviation ok := (parses json_loads).
Local Abbreviation bad := (malformed json_loads).

(** X4: whatever the archive holds and whatever [json.loads] does, the
    archive reader leaves the file system as it was and only adds lines to
    what was printed. *)
Theorem reader_only_prints (p : str) (st : State) :
  world (extract_mjai_log json_loads p st).2 = world st
  ∧ ∃ lines, stdout (extract_mjai_log json_loads p st).2 = stdout st ++ lines.
Proof.
  destruct (extract_shape json_loads p st) as (ws & _ & [[_ [e ->]]|[_ ->]]);
    (split; [done|]); eexists; reflexivity.
Qed.



End ReaderEffects.

(** ** The template splicer: round trip and reuse *)

Lemma occurs_at_take (pat s : str) (k : nat) :
  occurs_at pat s k ↔ take (length pat) (drop k s) = pat.
Proof.
  split.
  - intros [r ->]. by rewrite take_app_length.
  - intros H. exists (drop (length pat) (drop k s)).
    rewrite <- H at 1. by rewrite take_drop.
Qed.

Lemma occurs_at_prefix (pat s x : str) (k n : nat) :
  (k + length pat ≤ n)%nat → (n ≤ length s)%nat →
  occurs_at pat (take n s ++ x) k ↔ occurs_at pat s k.
Proof.
  intros Hk Hn. rewrite !occurs_at_take.
  assert (take (length pat) (drop k (take n s ++ x)) = take (length pat) (drop k s))
    as ->; [|done].
  rewrite drop_app_le by (rewrite length_take; lia).
  rewrite take_app_le by (rewrite length_drop, length_take; lia).
  rewrite !take_drop_commute, take_take. do 2 f_equal. lia.
Qed.

Lemma occurs_find (pat s : str) (k : nat) :
  occurs_at pat s k → Py.find s pat ≠ -1.
Proof. intros Hk Hm%find_absent. by destruct (Hm k). Qed.

(** X6: splicing the text that a template holds between its markers back
    into the template gives the template itself, when the first end marker
    starts at or after the end of the first start marker. *)
Theorem splice_restores_template (t : str) (i j : nat) :
  first_occurrence start_marker t i →
  first_occurrence end_marker t j →
  (i + length start_marker ≤ j)%nat →
  splice t (interior t i j) = Some t.
Proof.
  intros Hi Hj Hle. rewrite (splice_found t _ i j) by (by apply find_first_occurrence).
  f_equal. unfold interior.
  assert (drop j t = drop (j - (i + length start_marker))
                       (drop (i + length start_marker) t)) as ->
    by (rewrite drop_drop; f_equal; lia).
  by rewrite !take_drop.
Qed.

(** X7: a spliced document is a usable template again: its first start
    marker is where the template had it, an end marker starts right after the
    payload, and so splicing any payload into it succeeds. *)
Theorem report_keeps_markers (t payload : str) (i j : nat) :
  first_occurrence start_marker t i →
  first_occurrence end_marker t j →
  ∃ out,
    splice t payload = Some out
    ∧ first_occurrence start_marker out i
    ∧ occurs_at end_marker out (i + length start_marker + length payload)
    ∧ ∀ payload', is_Some (splice out payload').
Proof.
  intros Hi Hj. eexists. split.
  { apply splice_found; by apply find_first_occurrence. }
  set (a := (i + length start_marker)%nat).
  pose proof (occurs_at_bound _ _ _ (proj1 Hi) ltac:(done)) as Ha. fold a in Ha.
  assert (first_occurrence start_marker (take a t ++ payload ++ drop j t) i) as Hs.
  { split.
    - apply (occurs_at_prefix _ t _ i a); [done|done|apply Hi].
    - intros k Hk Hocc. apply (proj2 Hi k Hk).
      apply (occurs_at_prefix _ t (payload ++ drop j t) k a); [lia|done|done]. }
  assert (occurs_at end_marker (take a t ++ payload ++ drop j t)
            (a + length payload)) as He.
  { destruct Hj as [[r Hr] _]. exists r.
    rewrite drop_app_ge by (rewrite length_take; lia).
    rewrite length_take, Nat.min_l by lia.
    replace (a + length payload - a)%nat with (length payload) by lia.
    by rewrite drop_app_length. }
  split; [exact Hs|]. split; [exact He|].
  intros payload'. unfold splice.
  pose proof (occurs_find _ _ _ (proj1 Hs)) as H1.
  pose proof (occurs_find _ _ _ He) as H2.
  destruct (Z.eqb_spec (Py.find (take a t ++ payload ++ drop j t) start_marker) (-1));
    [done|].
  destruct (Z.eqb_spec (Py.find (take a t ++ payload ++ drop j t) end_marker) (-1));
    [done|].
  cbn [orb]. by eexists.
Qed.

Lemma splice_restores_template_witness :
  first_occurrence start_marker demo_template 8
  ∧ first_occurrence end_marker demo_template 26
  ∧ (8 + length start_marker ≤ 26)%nat
  ∧ interior demo_template 8 26 = lit "[0]"
  ∧ splice demo_template (lit "[0]") = Some demo_template.
Proof.
  assert (first_occurrence start_marker demo_template 8) as H1
    by (apply find_first_occurrence; vm_compute; reflexivity).
  assert (first_occurrence end_marker demo_template 26) as H2
    by (apply find_first_occurrence; vm_compute; reflexivity).
  assert (8 + length start_marker ≤ 26)%nat as H3 by (vm_compute; lia).
  assert (interior demo_template 8 26 = lit "[0]") as H4 by (vm_compute; reflexivity).
  do 4 (split; [assumption|]). rewrite <- H4.
  exact (splice_restores_template demo_template 8 26 H1 H2 H3).
Defined.

Lemma report_keeps_markers_witness :
  first_occurrence start_marker demo_template 8
  ∧ first_occurrence end_marker demo_template 26
  ∧ ∃ out,
      splice demo_template (lit "{}") = Some out
      ∧ first_occurrence start_marker out 8
      ∧ occurs_at end_marker out (8 + length start_marker + length (lit "{}"))
      ∧ ∀ payload', is_Some (splice out payload').
Proof.
  assert (first_occurrence start_marker demo_template 8) as H1
    by (apply find_first_occurrence; vm_compute; reflexivity).
  assert (first_occurrence end_marker demo_template 26) as H2
    by (apply find_first_occurrence; vm_compute; reflexivity).
  do 2 (split; [assumption|]).
  exact (report_keeps_markers demo_template (lit "{}") 8 26 H1 H2).
Defined.

(** ** The output path *)

Lemma startswith_app (s x pat : str) :
  Py.startswith s pat = true → Py.startswith (s ++ x) pat = true.
Proof.
  rewrite !startswith_spec. intros [r ->]. exists (r ++ x). by rewrite app_assoc.
Qed.

(** An occurrence of [.json.gz] that starts in [u] does not run into a
    [.json.gz] that follows [u]. *)
Lemma json_gz_no_straddle (u : str) :
  u ≠ [] → Py.startswith (u ++ json_gz) json_gz = true →
  Py.startswith u json_gz = true.
Proof.
  intros Hne [r Hr]%startswith_spec.
  destruct u as [|x1 u]; [done|]. clear Hne.
  do 7 (destruct u as [|? u]; [discriminate Hr|]).
  apply startswith_spec. exists u. cbn in Hr. cbn.
  injection Hr as -> -> -> -> -> -> -> -> _. done.
Qed.

Lemma replace_from_json_gz_suffix (k : nat) (stem : str) :
  (k ≤ length stem)%nat →
  Py.replace_from k (stem ++ json_gz) json_gz html
  = Py.replace_from k stem json_gz html ++ html.
Proof.
  revert k. induction stem as [|c s IH]; intros k Hk.
  - assert (k = 0%nat) as -> by (cbn in Hk; lia). vm_compute. reflexivity.
  - destruct k as [|k].
    + cbn [app Py.replace_from].
      destruct (Py.startswith (c :: s) json_gz) eqn:E.
      * change (c :: s ++ json_gz) with ((c :: s) ++ json_gz).
        rewrite (startswith_app _ _ _ E). rewrite <- app_assoc. f_equal.
        apply IH. apply startswith_spec in E as [r Hr].
        apply (f_equal length) in Hr. rewrite length_app in Hr.
        change (length json_gz) with 8%nat in *. cbn [length] in Hr. lia.
      * destruct (Py.startswith (c :: s ++ json_gz) json_gz) eqn:E'.
        { change (c :: s ++ json_gz) with ((c :: s) ++ json_gz) in E'.
          apply json_gz_no_straddle in E'; [congruence|done]. }
        cbn [app]. f_equal. apply IH. lia.
    + cbn [app Py.replace_from]. apply IH. cbn [length] in Hk. lia.
Qed.

Lemma not_html_and_json_gz (q : str) :
  ends_with q html → ends_with q json_gz → False.
Proof.
  intros [s1 H1] [s2 H2]. rewrite H1 in H2. apply (f_equal reverse) in H2.
  rewrite !reverse_app in H2. vm_compute in H2. discriminate H2.
Qed.

Lemma sep_not_in_html_name (p : str) : OsPath.sep ∉ html_name_of p.
Proof.
  destruct (basename_spec p) as [Hno _].
  unfold html_name_of, Py.replace. intros [H|H]%replace_from_elem; [done|].
  vm_compute in H. repeat (apply elem_of_cons in H as [H|H]; [discriminate|]).
  by apply not_elem_of_nil in H.
Qed.

Lemma join_ends_with (d h suf : str) :
  ends_with h suf → ends_with (OsPath.join d h) suf.
Proof.
  intros [s ->]. unfold OsPath.join.
  destruct (Py.startswith (s ++ suf) [OsPath.sep]); [by exists s|].
  destruct (negb (Py.truthy d) || Py.endswith d [OsPath.sep]).
  - exists (d ++ s). by rewrite app_assoc.
  - exists (d ++ [OsPath.sep] ++ s). by rewrite <- !app_assoc.
Qed.

Lemma output_ends_with_html (p : str) (od : option str) :
  ends_with p json_gz → ends_with (output_path_of p od) html.
Proof.
  intros [stem Hs]%basename_ends_with_json_gz.
  unfold output_path_of. apply join_ends_with. unfold html_name_of, Py.replace.
  rewrite Hs, replace_from_json_gz_suffix by lia. by eexists.
Qed.

(** X8: for an archive path that ends in [.json.gz], the name of the report
    is the stem of the archive name, with every [.json.gz] in it replaced,
    followed by [.html]; so the output path ends in [.html], whatever the
    output directory, and it is not the path of the archive.  In every case
    the last component of the output path is the name of the report. *)
Theorem json_gz_archive_gives_html_report (p : str) (od : option str) :
  OsPath.basename (output_path_of p od) = html_name_of p
  ∧ (ends_with p json_gz →
     (∃ stem, OsPath.basename p = stem ++ json_gz
              ∧ html_name_of p = Py.replace stem json_gz html ++ html)
     ∧ ends_with (output_path_of p od) html
     ∧ output_path_of p od ≠ p).
Proof.
  split.
  { unfold output_path_of. apply join_basename, sep_not_in_html_name. }
  intros Hp. destruct (basename_ends_with_json_gz p Hp) as [stem Hs].
  assert (html_name_of p = Py.replace stem json_gz html ++ html) as Hn.
  { unfold html_name_of, Py.replace. rewrite Hs.
    apply replace_from_json_gz_suffix. lia. }
  split; [by exists stem|]. split.
  - unfold output_path_of. apply join_ends_with. rewrite Hn. by eexists.
  - intros Heq. apply (not_html_and_json_gz p); [|done]. rewrite <- Heq.
    unfold output_path_of. apply join_ends_with. rewrite Hn. by eexists.
Qed.

Lemma json_gz_archive_gives_html_report_witness :
  ends_with (lit "logs/old.json.gz.json.gz") json_gz
  ∧ html_name_of (lit "logs/old.json.gz.json.gz") = lit "old.html.html"
  ∧ ends_with (output_path_of (lit "logs/old.json.gz.json.gz") (Some (lit "out/"))) html
  ∧ output_path_of (lit "logs/old.json.gz.json.gz") (Some (lit "out/"))
    ≠ lit "logs/old.json.gz.json.gz".
Proof.
  assert (ends_with (lit "logs/old.json.gz.json.gz") json_gz) as H
    by (apply endswith_spec; vm_compute; reflexivity).
  split; [exact H|].
  destruct (json_gz_archive_gives_html_report (lit "logs/old.json.gz.json.gz")
              (Some (lit "out/"))) as [_ Hthm].
  destruct (Hthm H) as (_ & H2 & H3).
  split; [vm_compute; reflexivity|]. split; [exact H2|exact H3].
Defined.

Lemma rstrip_char_keeps (c : ascii) (d : str) :
  ¬ ends_with d [c] → Py.rstrip_char c d = d.
Proof.
  intros Hd. unfold Py.rstrip_char.
  destruct (reverse d) as [|x r] eqn:E.
  - cbn. apply (f_equal reverse) in E. by rewrite reverse_involutive in E.
  - cbn [Py.lstrip_char]. destruct (Ascii.eqb x c) eqn:Ex.
    + apply Ascii.eqb_eq in Ex as ->. exfalso. apply Hd. exists (reverse r).
      apply (f_equal reverse) in E. rewrite reverse_involutive in E.
      by rewrite E, reverse_cons.
    + rewrite <- E. apply reverse_involutive.
Qed.

Lemma rstrip_char_snoc (c : ascii) (d : str) :
  Py.rstrip_char c (d ++ [c]) = Py.rstrip_char c d.
Proof.
  unfold Py.rstrip_char. rewrite reverse_snoc. cbn [Py.lstrip_char].
  by rewrite Ascii.eqb_refl.
Qed.

Lemma dirname_plain (d b : str) :
  OsPath.sep ∉ b → d ≠ [] → ¬ ends_with d [OsPath.sep] →
  OsPath.dirname (d ++ OsPath.sep :: b) = d.
Proof.
  intros Hb Hne Hd. unfold OsPath.dirname. rewrite rfind_sep_last by done.
  unfold Py.len. replace (Z.of_nat (length d) + 1) with (Z.of_nat (length d + 1)) by lia.
  rewrite slice_to_nat.
  assert (take (length d + 1) (d ++ OsPath.sep :: b) = d ++ [OsPath.sep]) as ->.
  { rewrite take_app_ge by lia.
    replace (length d + 1 - length d)%nat with 1%nat by lia. done. }
  assert (Py.truthy (d ++ [OsPath.sep]) = true) as -> by (by destruct d).
  rewrite bool_decide_eq_false_2.
  - cbn [negb andb]. rewrite rstrip_char_snoc. by apply rstrip_char_keeps.
  - intros Heq. apply Hd. rewrite length_app in Heq. cbn [length] in Heq.
    replace (length d + 1)%nat with (S (length d)) in Heq by lia.
    rewrite replicate_S_end in Heq. apply app_inj_tail in Heq as [Heq _].
    destruct (length d) as [|n] eqn:El; [by destruct d|].
    rewrite replicate_S_end in Heq. by eexists.
Qed.

Lemma dirname_root (b : str) :
  OsPath.sep ∉ b → OsPath.dirname (OsPath.sep :: b) = [OsPath.sep].
Proof.
  intros Hb. unfold OsPath.dirname.
  change (OsPath.sep :: b) with ([] ++ OsPath.sep :: b).
  rewrite (rfind_sep_last [] b) by done.
  change (Py.slice_to ([] ++ OsPath.sep :: b) (Py.len [] + 1)) with [OsPath.sep].
  by rewrite bool_decide_eq_true_2.
Qed.

Lemma dirname_bare (b : str) : OsPath.sep ∉ b → OsPath.dirname b = [].
Proof.
  intros Hb. unfold OsPath.dirname. rewrite rfind_sep_absent by done. done.
Qed.

Lemma startswith_sep_false (b : str) :
  OsPath.sep ∉ b → Py.startswith b [OsPath.sep] = false.
Proof.
  intros Hb. destruct b as [|c b]; [done|]. cbn.
  apply not_elem_of_cons in Hb as [Hc _].
  destruct (Ascii.eqb c OsPath.sep) eqn:E; [|done].
  apply Ascii.eqb_eq in E. congruence.
Qed.

(** X9: with no output directory, a plainly written archive path whose name
    holds no [.json.gz] is its own output path: the name is left as it is and
    the report goes to the directory of the archive, so a report generated
    for such an archive is written to the path of the archive. *)
Theorem other_name_is_its_own_output (p : str) :
  absent json_gz (OsPath.basename p) →
  html_name_of p = OsPath.basename p
  ∧ (plain_path p → output_path_of p None = p).
Proof.
  intros Ha.
  assert (html_name_of p = OsPath.basename p) as Hn
    by (unfold html_name_of; by apply replace_absent).
  split; [exact Hn|]. destruct (basename_spec p) as [Hno _].
  pose proof (startswith_sep_false _ Hno) as Hsw.
  unfold output_path_of. rewrite Hn.
  intros [Hp|(d & Hp & Hd)].
  - rewrite Hp at 1. rewrite dirname_bare by done.
    unfold OsPath.join. rewrite Hsw. cbn. by symmetry.
  - destruct d as [|c d].
    + rewrite Hp at 1. cbn [app]. rewrite dirname_root by done.
      unfold OsPath.join. rewrite Hsw. cbn. by symmetry.
    + rewrite Hp at 1. rewrite dirname_plain by done.
      unfold OsPath.join. rewrite Hsw. cbn [Py.truthy negb orb].
      rewrite (proj2 (endswith_false _ _) Hd). cbn [app]. by symmetry.
Qed.

Lemma other_name_is_its_own_output_witness :
  absent json_gz (OsPath.basename (lit "data/run1/log.gz"))
  ∧ plain_path (lit "data/run1/log.gz")
  ∧ html_name_of (lit "data/run1/log.gz") = lit "log.gz"
  ∧ output_path_of (lit "data/run1/log.gz") None = lit "data/run1/log.gz".
Proof.
  assert (absent json_gz (OsPath.basename (lit "data/run1/log.gz"))) as H1
    by (apply find_absent; vm_compute; reflexivity).
  assert (plain_path (lit "data/run1/log.gz")) as H2.
  { right. exists (lit "data/run1"). split; [vm_compute; reflexivity|].
    apply endswith_false. vm_compute. reflexivity. }
  do 2 (split; [assumption|]).
  destruct (other_name_is_its_own_output (lit "data/run1/log.gz") H1) as [Hn Hp].
  split; [rewrite Hn; vm_compute; reflexivity|exact (Hp H2)].
Defined.

(** ** The limit step, for every limit *)

Lemma enforce_limit_run (limit : option Z) (generated_files : list str) (st : State) :
  let m := kept_count limit (length generated_files) in
  enforce_limit limit generated_files st
  = (take m generated_files, (remove_loop (drop m generated_files) st).2).
Proof.
  cbn zeta. unfold enforce_limit, limit_exceeded, kept_count, Py.len.
  destruct limit as [l|].
  2:{ by rewrite take_ge, drop_ge by lia. }
  destruct (Z.eqb_spec l 0) as [->|Hl0]; cbn [negb andb orb].
  { by rewrite take_ge, drop_ge by lia. }
  destruct (Z.gtb_spec (Z.of_nat (length generated_files)) l) as [Hgt|Hle].
  - destruct (Z.leb_spec (Z.of_nat (length generated_files)) l); [lia|].
    unfold Py.slice_from, Py.slice_to, Py.len. destruct (l <? 0); by run.
  - destruct (Z.leb_spec (Z.of_nat (length generated_files)) l); [|lia].
    by rewrite take_ge, drop_ge by lia.
Qed.

(** X10: whatever the limit, the limit step returns a prefix of the result
    set, removes only files whose path is in the result set beyond that
    prefix and ends in [.html], changes the content of no file, and leaves
    the directories as they were. *)
Theorem limit_step_removes_only_reports (limit : option Z)
    (generated_files : list str) (st : State) :
  let r := enforce_limit limit generated_files st in
  let m := kept_count limit (length generated_files) in
  r.1 = take m generated_files
  ∧ (∀ q, removed (world st) (world r.2) q →
          q ∈ drop m generated_files ∧ ends_with q html)
  ∧ (∀ q, files (world r.2) !! q = None
          ∨ files (world r.2) !! q = files (world st) !! q)
  ∧ dirs (world r.2) = dirs (world st).
Proof.
  cbn zeta. rewrite enforce_limit_run. cbn [fst snd].
  destruct (remove_loop_run (drop (kept_count limit (length generated_files))
                               generated_files) st)
    as (w' & notes & -> & Hd & _ & _ & Hf).
  cbn [snd moved world]. split; [done|]. split; [|split; [|done]].
  - intros q [Hin Hout]. apply not_elem_of_dom in Hout. rewrite Hf in Hout.
    apply elem_of_dom in Hin as [c Hc]. rewrite Hc in Hout.
    destruct (bool_decide _) eqn:Eq; [|done].
    apply bool_decide_eq_true_1 in Eq. split; [done|].
    unfold deletable in Hout. apply endswith_spec.
    destruct (Py.endswith q html); [done|]. cbn in Hout. congruence.
  - intros q. rewrite Hf. destruct (_ && _); auto.
Qed.

(** X11: the edge values of the limit.  Without a limit, with a limit of 0
    and with a limit that the result set does not exceed, the step does
    nothing.  With a negative limit [-k] it keeps all entries but the last
    [k], and none when [k] is the size of the result set or more; then every
    report of the result set that ends in [.html], is not a directory and can
    be removed is removed. *)
Theorem limit_edge_values (limit : option Z) (generated_files : list str)
    (st : State) :
  let r := enforce_limit limit generated_files st in
  ((limit = None ∨ limit = Some 0
    ∨ ∃ l, limit = Some l ∧ Py.len generated_files ≤ l) → r = (generated_files, st))
  ∧ (∀ l, limit = Some l → l < 0 →
       Py.len r.1 = Z.max 0 (Py.len generated_files + l)
       ∧ (l ≤ - Py.len generated_files →
          r.1 = []
          ∧ ∀ q, q ∈ generated_files → deletable (world st) q = true →
                 files (world r.2) !! q = None)).
Proof.
  cbn zeta. rewrite enforce_limit_run. unfold Py.len. split.
  - intros Hcase.
    assert (kept_count limit (length generated_files) = length generated_files) as ->.
    { unfold kept_count. destruct Hcase as [->|[->|(l & -> & Hl)]]; [done|done|].
      destruct (Z.eqb_spec l 0); [done|].
      destruct (Z.leb_spec (Z.of_nat (length generated_files)) l); [done|lia]. }
    rewrite take_ge, drop_ge by lia. by destruct st.
  - intros l -> Hl.
    assert (kept_count (Some l) (length generated_files)
            = Z.to_nat (Z.max 0 (Z.of_nat (length generated_files) + l))) as ->.
    { unfold kept_count. destruct (Z.eqb_spec l 0); [lia|].
      destruct (Z.leb_spec (Z.of_nat (length generated_files)) l); [lia|].
      destruct (Z.ltb_spec l 0); [done|lia]. }
    cbn [fst snd]. split; [rewrite length_take; lia|].
    intros Hall.
    replace (Z.to_nat (Z.max 0 (Z.of_nat (length generated_files) + l))) with 0%nat by lia.
    rewrite take_0, drop_0. split; [done|]. intros q Hq Hdel.
    destruct (remove_loop_run generated_files st) as (w' & notes & -> & _ & _ & _ & Hf).
    cbn [snd moved world]. rewrite Hf, Hdel, bool_decide_eq_true_2 by done. done.
Qed.

(** X12: when the entries of the result set are distinct, the limit step
    leaves every report that it keeps in the result set as it was. *)
Theorem kept_reports_survive (limit : option Z) (generated_files : list str)
    (st : State) :
  NoDup generated_files →
  let r := enforce_limit limit generated_files st in
  ∀ q, q ∈ r.1 → files (world r.2) !! q = files (world st) !! q.
Proof.
  intros Hnd. cbn zeta. rewrite enforce_limit_run. cbn [fst snd].
  set (m := kept_count limit (length generated_files)).
  intros q Hq. rewrite <- (take_drop m generated_files) in Hnd.
  apply NoDup_app in Hnd as (_ & Hdisj & _).
  destruct (remove_loop_run (drop m generated_files) st)
    as (w' & notes & -> & _ & _ & _ & Hf).
  cbn [snd moved world]. rewrite Hf.
  rewrite bool_decide_eq_false_2 by (by apply Hdisj). done.
Qed.

(** ** The batch coordinator: result set and frame *)

Section BatchRuns.

Variable json_loads : str → option exn.
Variable glob : World → str → str → list str.

Lemma process_loop_cons (tp : str) (od : option str) (n i : nat) (f : str)
    (todo acc : list str) (st : State) :
  process_loop json_loads tp od n i (f :: todo) acc st
  = let r := generate_html_file json_loads f tp od
               (printed st [progress_note i n f]) in
    process_loop json_loads tp od n (S i) todo
      match r.1 with
      | Some p => if Py.truthy p then acc ++ [p] else acc
      | None => acc
      end r.2.
Proof. done. Qed.

(** What the loop over the matched archives returns and does. *)
Lemma process_loop_run (tp : str) (od : option str) (n i : nat)
    (todo acc : list str) (st : State) :
  let r := process_loop json_loads tp od n i todo acc st in
  ∃ new,
    r.1 = acc ++ new
    ∧ new `sublist_of` output_paths od todo
    ∧ Forall (is_text (world r.2)) new
    ∧ (∀ q, is_text (world st) q → is_text (world r.2) q)
    ∧ (∀ q, q ∉ output_paths od todo → files (world r.2) !! q = files (world st) !! q)
    ∧ dom (files (world st)) ⊆ dom (files (world r.2))
    ∧ dirs (world r.2) = dirs (world st)
    ∧ unwritable (world r.2) = unwritable (world st)
    ∧ unremovable (world r.2) = unremovable (world st).
Proof.
  cbn zeta. revert i acc st. induction todo as [|f todo IH]; intros i acc st.
  - exists []. cbn. rewrite app_nil_r. repeat split; try done.
  - rewrite process_loop_cons. cbn zeta.
    set (st0 := printed st [progress_note i n f]).
    pose proof (generate_shape json_loads f tp od st0) as Hshape. cbn zeta in Hshape.
    destruct (generate_html_file json_loads f tp od st0) as [res st1] eqn:Hrun.
    cbn [fst snd] in *.
    set (acc1 := match res with
                 | Some p => if Py.truthy p then acc ++ [p] else acc
                 | None => acc
                 end).
    destruct (IH (S i) acc1 st1)
      as (new & Hres & Hsub & Htext & Hkeep & Hframe & Hdom & Hd & Hw & Hu).
    assert (∃ first, acc1 = acc ++ first
                     ∧ first `sublist_of` [output_path_of f od]
                     ∧ Forall (is_text (world st1)) first) as (first & Hacc & Hfs & Hft).
    { subst acc1. destruct Hshape as [[-> _]|(txt & -> & _ & Hw1)].
      - exists []. rewrite app_nil_r. split; [done|]. split; [apply sublist_nil_l|done].
      - destruct (Py.truthy (output_path_of f od)).
        + exists [output_path_of f od]. split; [done|]. split; [done|].
          constructor; [|done]. exists txt. rewrite Hw1. cbn. apply lookup_insert_eq.
        + exists []. rewrite app_nil_r. split; [done|].
          split; [apply sublist_nil_l|done]. }
    assert ((∀ q, q ≠ output_path_of f od →
                  files (world st1) !! q = files (world st) !! q)
            ∧ (∀ q, is_text (world st) q → is_text (world st1) q)
            ∧ dom (files (world st)) ⊆ dom (files (world st1))
            ∧ dirs (world st1) = dirs (world st)
            ∧ unwritable (world st1) = unwritable (world st)
            ∧ unremovable (world st1) = unremovable (world st))
      as (Hf1 & Hk1 & Hdom1 & Hd1 & Hw1 & Hu1).
    { destruct Hshape as [[_ ->]|(txt & _ & _ & ->)]; [done|].
      unfold with_file. cbn. split; [|split; [|split; [|done]]].
      - intros q Hq. by apply lookup_insert_ne.
      - intros q [t Ht]. unfold is_text. cbn.
        destruct (decide (q = output_path_of f od)) as [->|Hq].
        + rewrite lookup_insert_eq. by eexists.
        + rewrite lookup_insert_ne by done. by exists t.
      - rewrite dom_insert_L. apply union_subseteq_r. }
    exists (first ++ new).
    split; [by rewrite Hres, Hacc, <- app_assoc|]. split.
    { unfold output_paths. rewrite fmap_cons.
      change (output_path_of f od :: ((λ f0, output_path_of f0 od) <$> todo))
        with ([output_path_of f od] ++ output_paths od todo).
      by apply sublist_app. }
    split.
    { apply Forall_app. split; [|done].
      eapply Forall_impl; [exact Hft|]. cbn. intros q. apply Hkeep. }
    split; [intros q Hq; by apply Hkeep, Hk1|].
    split.
    { intros q Hq. unfold output_paths in Hq. rewrite fmap_cons in Hq.
      apply not_elem_of_cons in Hq as [Hq1 Hq2].
      rewrite Hframe by done. by apply Hf1. }
    split; [by etrans|]. split; [congruence|]. split; congruence.
Qed.

(** What [process_directory] returns and does, in terms of the archives that
    the pattern matches. *)
Lemma process_directory_run (input_dir tp : str) (od : option str)
    (pattern : str) (st : State) :
  let r := process_directory json_loads glob input_dir tp od pattern st in
  let matched := glob (world st) input_dir pattern in
  r.1 `sublist_of` output_paths od matched
  ∧ Forall (is_text (world r.2)) r.1
  ∧ (∀ q, q ∉ output_paths od matched → files (world r.2) !! q = files (world st) !! q)
  ∧ dom (files (world st)) ⊆ dom (files (world r.2))
  ∧ dirs (world r.2) = dirs (world st)
  ∧ unwritable (world r.2) = unwritable (world st)
  ∧ unremovable (world r.2) = unremovable (world st).
Proof.
  cbn zeta.
  assert (∀ lines,
    let r := process_matches json_loads glob input_dir tp od pattern (printed st lines) in
    r.1 `sublist_of` output_paths od (glob (world st) input_dir pattern)
    ∧ Forall (is_text (world r.2)) r.1
    ∧ (∀ q, q ∉ output_paths od (glob (world st) input_dir pattern) →
            files (world r.2) !! q = files (world st) !! q)
    ∧ dom (files (world st)) ⊆ dom (files (world r.2))
    ∧ dirs (world r.2) = dirs (world st)
    ∧ unwritable (world r.2) = unwritable (world st)
    ∧ unremovable (world r.2) = unremovable (world st)) as Hmatches.
  { intros lines. cbn zeta. unfold process_matches, printed. run.
    destruct (glob (world st) input_dir pattern) as [|f files] eqn:Hg.
    - cbn [Py.truthy negb fst snd world stdout].
      split; [apply sublist_nil_l|]. repeat split; done.
    - cbn [Py.truthy negb].
      match goal with
      | |- context [process_loop _ _ _ ?n ?i ?l ?a ?s] =>
          destruct (process_loop_run tp od n i l a s)
            as (new & Hres & Hsub & Htext & _ & Hframe & Hdom & Hd & Hw & Hu)
      end.
      cbn zeta in *. cbn [world] in *. rewrite Hres. cbn [app]. repeat split; done. }
  unfold process_directory.
  destruct (Py.endswith pattern json_gz); cbn [negb].
  { pose proof (Hmatches []) as H. rewrite printed_nil in H. exact H. }
  destruct (Py.endswith pattern gz); cbn [negb].
  - run. apply (Hmatches [pattern_warning pattern]).
  - run. split; [apply sublist_nil_l|]. repeat split; done.
Qed.

End BatchRuns.

(** ** The batch coordinator and the entry point: what a run can touch *)

Lemma enforce_limit_lookup (limit : option Z) (generated_files : list str)
    (st : State) (q : str) :
  let r := enforce_limit limit generated_files st in
  (files (world r.2) !! q = files (world st) !! q
   ∨ (files (world r.2) !! q = None ∧ Py.endswith q html = true
      ∧ q ∈ generated_files))
  ∧ dirs (world r.2) = dirs (world st).
Proof.
  cbn zeta. rewrite enforce_limit_run. cbn [snd].
  destruct (remove_loop_run (drop (kept_count limit (length generated_files))
                               generated_files) st)
    as (w' & notes & -> & Hd & _ & _ & Hf).
  cbn [snd moved world]. split; [|done]. rewrite Hf.
  destruct (bool_decide _) eqn:Eq; [|by left].
  apply bool_decide_eq_true_1 in Eq. unfold deletable.
  destruct (Py.endswith q html); [|by left]. cbn [andb].
  destruct (negb _ && negb _); [|by left]. right.
  split; [done|]. split; [done|]. by eapply subseteq_drop.
Qed.

Lemma ends_with_truthy (q suf : str) : suf ≠ [] → ends_with q suf → Py.truthy q = true.
Proof.
  intros Hne [s ->]. destruct s; [by destruct suf|done].
Qed.

Section Runs.

Variable json_loads : str → option exn.
Variable glob : World → str → str → list str.

(** X13: the result set of [process_directory] is made, in the order of
    enumeration, of output paths of archives that the pattern matched, at
    most one for each archive; and when [process_directory] returns, each
    path of the result set is a file that holds text. *)
Theorem result_set_of_a_batch (input_dir tp : str) (od : option str)
    (pattern : str) (st : State) :
  let r := process_directory json_loads glob input_dir tp od pattern st in
  let matched := glob (world st) input_dir pattern in
  r.1 `sublist_of` output_paths od matched
  ∧ (length r.1 ≤ length matched)%nat
  ∧ Forall (is_text (world r.2)) r.1.
Proof.
  cbn zeta.
  destruct (process_directory_run json_loads glob input_dir tp od pattern st)
    as (Hsub & Htext & _).
  split; [done|]. split; [|done].
  apply sublist_length in Hsub. unfold output_paths in Hsub.
  by rewrite length_fmap in Hsub.
Qed.

(** X14: in a file system without symbolic or hard links, where each path
    string names a file of its own, [process_directory] removes no file and
    changes no file but the output paths of the archives that the pattern
    matched; the directories and the access rights stay as they were. *)
Theorem batch_changes_only_outputs (input_dir tp : str) (od : option str)
    (pattern : str) (st : State) :
  let r := process_directory json_loads glob input_dir tp od pattern st in
  let matched := glob (world st) input_dir pattern in
  (∀ q, q ∉ output_paths od matched → files (world r.2) !! q = files (world st) !! q)
  ∧ dom (files (world st)) ⊆ dom (files (world r.2))
  ∧ dirs (world r.2) = dirs (world st)
  ∧ unwritable (world r.2) = unwritable (world st)
  ∧ unremovable (world r.2) = unremovable (world st).
Proof.
  cbn zeta.
  by destruct (process_directory_run json_loads glob input_dir tp od pattern st)
    as (_ & _ & H).
Qed.

(** X15: in a file system without symbolic or hard links, where each path
    string names a file of its own, a run of [main] on one file, and a run
    on a directory in which every matched path ends in [.json.gz], as with
    the default pattern, changes and removes only files whose path ends in
    [.html]: every other path, and so every archive named [.json.gz], holds
    afterwards what it held before. *)
Theorem run_touches_only_html (args : Args) (st : State) :
  (OsPathFs.isfile (world st) (input args) = false →
   Forall (λ f, ends_with f json_gz)
     (glob (world st) (input args) (pattern args))) →
  let w' := world (main json_loads glob args st).2 in
  (∀ q, ¬ ends_with q html → files w' !! q = files (world st) !! q)
  ∧ (∀ q, ends_with q json_gz → files w' !! q = files (world st) !! q).
Proof.
  intros Hglob. cbn zeta.
  assert (∀ q, ¬ ends_with q html →
            files (world (main json_loads glob args st).2) !! q
            = files (world st) !! q) as Hmain.
  2:{ split; [exact Hmain|]. intros q Hq. apply Hmain. intros Hh.
      by apply (not_html_and_json_gz q). }
  intros q Hq. unfold main. run.
  destruct (OsPathFs.exists_ (world st) (template args)); cbn [negb]; [|done].
  destruct (OsPathFs.isfile (world st) (input args)) eqn:Hfile.
  - destruct (Py.endswith (input args) json_gz) eqn:He; cbn [negb]; [|done].
    apply endswith_spec in He.
    pose proof (generate_shape json_loads (input args) (template args)
                  (output args) st) as Hshape. cbn zeta in Hshape.
    destruct (generate_html_file json_loads (input args) (template args)
                (output args) st) as [res st1].
    cbn [fst snd] in *.
    assert (files (world st1) !! q = files (world st) !! q) as Hsame.
    { destruct Hshape as [[_ ->]|(new & _ & _ & ->)]; [done|].
      unfold with_file. cbn. apply lookup_insert_ne. intros <-.
      apply Hq. by apply output_ends_with_html. }
    destruct res as [p|]; [destruct (Py.truthy p)|]; exact Hsame.
  - destruct (OsPathFs.isdir (world st) (input args)); [|done].
    destruct (process_directory_run json_loads glob (input args) (template args)
                (output args) (pattern args) st) as (_ & _ & Hframe & _).
    cbn zeta in Hframe.
    destruct (process_directory json_loads glob (input args) (template args)
                (output args) (pattern args) st) as [gf st1]. cbn [fst snd] in *.
    destruct (enforce_limit_lookup (limit args) gf st1 q) as [Hl _]. cbn zeta in Hl.
    destruct (enforce_limit (limit args) gf st1) as [gf' st2].
    cbn [fst snd world stdout] in *.
    assert (files (world st2) !! q = files (world st1) !! q) as ->.
    { destruct Hl as [Hl|(_ & He & _)]; [done|].
      apply endswith_spec in He. done. }
    apply Hframe. unfold output_paths. intros (f & -> & Hf)%list_elem_of_fmap.
    apply Hq. apply output_ends_with_html.
    specialize (Hglob eq_refl). rewrite Forall_forall in Hglob. by apply Hglob.
Qed.

(** X16: the exit status of [main], once the arguments are parsed, on a run
    that is not a batch.  When the template does not exist, when the input is
    a file whose path does not end in [.json.gz], and when the input is
    neither a file nor a directory, [main] returns 1 and the file system is
    as it was.  On one file whose path ends in [.json.gz], [main] returns 1
    when the report generator returns [None].  A run on one file that
    returns 0 had an input path that ends in [.json.gz], has written the
    report, a text file, to the output path, and ends with the line that
    names it. *)
Theorem exit_status_of_main (args : Args) (st : State) :
  let r := main json_loads glob args st in
  ((OsPathFs.exists_ (world st) (template args) = false
    ∨ (OsPathFs.isfile (world st) (input args) = true
       ∧ ¬ ends_with (input args) json_gz)
    ∨ (OsPathFs.isfile (world st) (input args) = false
       ∧ OsPathFs.isdir (world st) (input args) = false)) →
   r.1.1 = 1 ∧ world r.2 = world st)
  ∧ (OsPathFs.exists_ (world st) (template args) = true →
     OsPathFs.isfile (world st) (input args) = true →
     ends_with (input args) json_gz →
     (generate_html_file json_loads (input args) (template args)
        (output args) st).1 = None →
     r.1.1 = 1)
  ∧ (OsPathFs.isfile (world st) (input args) = true → r.1.1 = 0 →
     ends_with (input args) json_gz
     ∧ is_text (world r.2) (output_path_of (input args) (output args))
     ∧ last (stdout r.2)
       = Some (lit "Successfully generated: "
               ++ output_path_of (input args) (output args))).
Proof.
  cbn zeta. unfold main. run.
  destruct (OsPathFs.exists_ (world st) (template args)); cbn [negb].
  2:{ cbn [fst snd world stdout]. split; [done|]. split; [done|]. intros _ [=]. }
  destruct (OsPathFs.isfile (world st) (input args)) eqn:Hfile.
  - destruct (Py.endswith (input args) json_gz) eqn:He; cbn [negb].
    2:{ cbn [fst snd world stdout]. split; [done|]. split; [done|]. intros _ [=]. }
    apply endswith_spec in He.
    pose proof (generate_shape json_loads (input args) (template args)
                  (output args) st) as Hshape. cbn zeta in Hshape.
    destruct (generate_html_file json_loads (input args) (template args)
                (output args) st) as [res st1].
    cbn [fst snd] in *.
    destruct Hshape as [[-> Hw]|(new & -> & _ & Hw)].
    + cbn [fst snd world stdout]. split; [done|]. split; [done|]. intros _ [=].
    + rewrite (ends_with_truthy _ html) by (done || by apply output_ends_with_html).
      cbn [fst snd world stdout]. split.
      { intros [[=]|[[_ Hn]|[[=] _]]]. by destruct Hn. }
      split; [intros _ _ _ [=]|]. intros _ _. split; [done|]. split.
      * exists new. rewrite Hw. unfold with_file. cbn. apply lookup_insert_eq.
      * apply last_snoc.
  - destruct (OsPathFs.isdir (world st) (input args)).
    + split.
      { intros [[=]|[[[=] _]|[_ [=]]]]. }
      split; [intros _ [=]|]. intros [=].
    + cbn [fst snd world stdout]. split; [done|]. split; [intros _ [=]|]. intros [=].
Qed.

(** X17: a run of [main] on a directory in which a pattern that passes the
    safety check matches nothing prints the notice and a count of 0, returns
    status 0 and an empty result set, and leaves the file system as it was,
    whatever the limit. *)
Theorem empty_directory_run (args : Args) (st : State) :
  OsPathFs.exists_ (world st) (template args) = true →
  OsPathFs.isfile (world st) (input args) = false →
  OsPathFs.isdir (world st) (input args) = true →
  ends_with (pattern args) json_gz →
  glob (world st) (input args) (pattern args) = [] →
  main json_loads glob args st
  = ((0, []),
     printed st [no_match_note (pattern args) (input args); summary 0]).
Proof.
  intros Ht Hf Hd Hp%endswith_spec Hg. unfold main. run.
  rewrite Ht, Hf, Hd. cbn [negb].
  unfold process_directory. rewrite Hp. cbn [negb].
  unfold process_matches. run. rewrite Hg. cbn [Py.truthy negb fst snd world stdout].
  rewrite enforce_limit_nil. cbn [fst snd length world stdout].
  unfold printed, summary, no_match_note. cbn [world stdout].
  by rewrite <- app_assoc.
Qed.

End Runs.

(** ** Runs that instantiate the further properties *)


Lemma failure_is_reported_witness :
  (generate_html_file Json.loads (lit "logs/game.json.gz") (lit "missing.html")
     None demo_state).1 = None
  ∧ world (generate_html_file Json.loads (lit "logs/game.json.gz")
             (lit "missing.html") None demo_state).2 = world demo_state
  ∧ last (stdout (generate_html_file Json.loads (lit "logs/game.json.gz")
                    (lit "missing.html") None demo_state).2)
    = Some (lit "Error reading template missing.html: [Errno 2] No such file or directory: 'missing.html'").
Proof.
  assert ((generate_html_file Json.loads (lit "logs/game.json.gz") (lit "missing.html")
             None demo_state).1 = None) as H by (vm_compute; reflexivity).
  split; [exact H|].
  destruct (failure_is_reported Json.loads (lit "logs/game.json.gz")
              (lit "missing.html") None demo_state H) as [Hw _].
  split; [exact Hw|]. vm_compute. reflexivity.
Defined.


Lemma limit_edge_values_witness :
  enforce_limit (Some 5) batch_run.1 batch_run.2 = (batch_run.1, batch_run.2)
  ∧ (-5 < 0 ∧ -5 ≤ - Py.len batch_run.1)
  ∧ (enforce_limit (Some (-5)) batch_run.1 batch_run.2).1 = []
  ∧ lit "logs/blank.html" ∈ batch_run.1
  ∧ deletable (world batch_run.2) (lit "logs/blank.html") = true
  ∧ files (world (enforce_limit (Some (-5)) batch_run.1 batch_run.2).2)
    !! lit "logs/blank.html" = None.
Proof.
  destruct (limit_edge_values (Some 5) batch_run.1 batch_run.2) as [Hnoop _].
  split.
  { apply Hnoop. right. right. exists 5. split; [reflexivity|].
    vm_compute. discriminate. }
  assert (-5 < 0) as H1 by reflexivity.
  assert (-5 ≤ - Py.len batch_run.1) as H2 by (vm_compute; discriminate).
  split; [exact (conj H1 H2)|].
  destruct (limit_edge_values (Some (-5)) batch_run.1 batch_run.2) as [_ Hneg].
  destruct (Hneg (-5) eq_refl H1) as [_ Hall]. destruct (Hall H2) as [Hnil Hgone].
  split; [exact Hnil|].
  assert (lit "logs/blank.html" ∈ batch_run.1) as H3
    by (apply (bool_decide_unpack _); vm_compute; exact I).
  assert (deletable (world batch_run.2) (lit "logs/blank.html") = true) as H4
    by (vm_compute; reflexivity).
  do 2 (split; [assumption|]). exact (Hgone _ H3 H4).
Defined.

Lemma kept_reports_survive_witness :
  NoDup batch_run.1
  ∧ lit "logs/blank.html" ∈ (enforce_limit (Some 1) batch_run.1 batch_run.2).1
  ∧ files (world (enforce_limit (Some 1) batch_run.1 batch_run.2).2)
    !! lit "logs/blank.html"
    = files (world batch_run.2) !! lit "logs/blank.html".
Proof.
  assert (NoDup batch_run.1) as H1
    by (apply (bool_decide_unpack _); vm_compute; exact I).
  assert (lit "logs/blank.html" ∈ (enforce_limit (Some 1) batch_run.1 batch_run.2).1)
    as H2 by (apply (bool_decide_unpack _); vm_compute; exact I).
  do 2 (split; [assumption|]).
  exact (kept_reports_survive (Some 1) batch_run.1 batch_run.2 H1 _ H2).
Defined.

Lemma run_touches_only_html_witness :
  Forall (λ f, ends_with f json_gz)
    (Glob.glob (world demo_state) (input limit_one_args) (pattern limit_one_args))
  ∧ ends_with (lit "logs/game.json.gz") json_gz
  ∧ files (world (main Json.loads Glob.glob limit_one_args demo_state).2)
    !! lit "logs/game.json.gz"
    = files (world demo_state) !! lit "logs/game.json.gz".
Proof.
  assert (Forall (λ f, ends_with f json_gz)
            (Glob.glob (world demo_state) (input limit_one_args)
               (pattern limit_one_args))) as H1.
  { apply Forall_forall. intros f Hf. apply endswith_spec. revert f Hf.
    apply Forall_forall. apply (bool_decide_unpack _). vm_compute. exact I. }
  assert (ends_with (lit "logs/game.json.gz") json_gz) as H2
    by (apply endswith_spec; vm_compute; reflexivity).
  do 2 (split; [assumption|]).
  destruct (run_touches_only_html Json.loads Glob.glob limit_one_args demo_state
              (λ _, H1)) as [_ Harch].
  exact (Harch _ H2).
Defined.

Lemma exit_status_of_main_witness :
  OsPathFs.isfile (world demo_state) (input single_file_args) = true
  ∧ ¬ ends_with (input single_file_args) json_gz
  ∧ (main Json.loads Glob.glob single_file_args demo_state).1.1 = 1
  ∧ world (main Json.loads Glob.glob single_file_args demo_state).2 = world demo_state.
Proof.
  assert (OsPathFs.isfile (world demo_state) (input single_file_args) = true) as H1
    by (vm_compute; reflexivity).
  assert (¬ ends_with (input single_file_args) json_gz) as H2
    by (apply endswith_false; vm_compute; reflexivity).
  split; [exact H1|]. split; [exact H2|].
  destruct (exit_status_of_main Json.loads Glob.glob single_file_args demo_state)
    as (Hone & _ & _).
  exact (Hone (or_intror (or_introl (conj H1 H2)))).
Defined.

Lemma empty_directory_run_witness :
  OsPathFs.exists_ (world demo_state) (template no_match_args) = true
  ∧ OsPathFs.isfile (world demo_state) (input no_match_args) = false
  ∧ OsPathFs.isdir (world demo_state) (input no_match_args) = true
  ∧ ends_with (pattern no_match_args) json_gz
  ∧ Glob.glob (world demo_state) (input no_match_args) (pattern no_match_args) = []
  ∧ main Json.loads Glob.glob no_match_args demo_state
    = ((0, []),
       printed demo_state
         [lit "No files matching 'none-*.json.gz' found in logs";
          [NL] ++ lit "Successfully generated 0 HTML files"]).
Proof.
  assert (OsPathFs.exists_ (world demo_state) (template no_match_args) = true) as H1
    by (vm_compute; reflexivity).
  assert (OsPathFs.isfile (world demo_state) (input no_match_args) = false) as H2
    by (vm_compute; reflexivity).
  assert (OsPathFs.isdir (world demo_state) (input no_match_args) = true) as H3
    by (vm_compute; reflexivity).
  assert (ends_with (pattern no_match_args) json_gz) as H4
    by (apply endswith_spec; vm_compute; reflexivity).
  assert (Glob.glob (world demo_state) (input no_match_args) (pattern no_match_args)
          = []) as H5 by (vm_compute; reflexivity).
  do 5 (split; [assumption|]).
  exact (empty_directory_run Json.loads Glob.glob no_match_args demo_state
           H1 H2 H3 H4 H5).
Defined.

(** ** A batch in which every archive succeeds *)

Section FullBatch.

Variable json_loads : str → option exn.
Variable glob : World → str → str → list str.





End FullBatch.

(** ** Every matched archive is attempted *)

Section Progress.

Variable json_loads : str → option exn.
Variable glob : World → str → str → list str.

Lemma generate_stdout (f tp : str) (od : option str) (st : State) :
  ∃ lines, stdout (generate_html_file json_loads f tp od st).2 = stdout st ++ lines.
Proof.
  destruct (extract_shape json_loads f st) as (ws & _ & Hcase).
  destruct (extract_mjai_log json_loads f st) as [[data|] st1] eqn:He;
    cbn [fst snd] in Hcase.
  - destruct Hcase as [[? _]|[_ ->]]; [done|].
    rewrite (generate_run json_loads f tp od st _ _ He). cbn [printed world].
    destruct (read_text (world st) tp) as [e|tt].
    { eexists. cbn. by rewrite <- app_assoc. }
    destruct (splice tt data) as [new|].
    2:{ eexists. cbn. by rewrite <- app_assoc. }
    cbn zeta. destruct (write_text (world st) (output_path_of f od) new) as [e|w'];
      eexists; cbn; by rewrite <- app_assoc.
  - destruct Hcase as [[_ [e ->]]|[[? ?] _]]; [|done].
    rewrite (generate_extract_fails json_loads f tp od st _ He). by eexists.
Qed.

Lemma process_loop_progress (tp : str) (od : option str) (n k : nat)
    (todo acc : list str) (st : State) :
  let r := process_loop json_loads tp od n k todo acc st in
  (∃ lines, stdout r.2 = stdout st ++ lines)
  ∧ ∀ idx f, todo !! idx = Some f → progress_note (k + idx) n f ∈ stdout r.2.
Proof.
  cbn zeta. revert k acc st. induction todo as [|f todo IH]; intros k acc st.
  - split; [exists []; cbn; by rewrite app_nil_r|]. intros idx f Hf. done.
  - rewrite process_loop_cons. cbn zeta.
    set (st0 := printed st [progress_note k n f]).
    destruct (generate_stdout f tp od st0) as [l1 Hl1].
    destruct (generate_html_file json_loads f tp od st0) as [res st1].
    cbn [fst snd] in *.
    match goal with
    | |- context [process_loop _ _ _ _ _ _ ?a _] =>
        destruct (IH (S k) a st1) as [[l2 Hl2] Hnotes]
    end.
    split.
    + eexists. rewrite Hl2, Hl1. cbn. by rewrite <- !app_assoc.
    + intros [|idx] g Hg.
      * injection Hg as ->. rewrite Nat.add_0_r, Hl2, Hl1. cbn.
        rewrite !elem_of_app. left. left. right. by left.
      * replace (k + S idx)%nat with (S k + idx)%nat by lia. by apply Hnotes.
Qed.

(** X19: a batch does not stop at a file that fails: when the pattern passes
    the safety check, [process_directory] announces every matched archive,
    numbered from 1 in the order of enumeration, whatever happens to the
    archives before it; and what was printed before the batch is kept. *)
Theorem every_archive_is_attempted (input_dir tp : str) (od : option str)
    (pattern : str) (st : State) :
  ends_with pattern gz →
  let matched := glob (world st) input_dir pattern in
  let r := process_directory json_loads glob input_dir tp od pattern st in
  (∃ lines, stdout r.2 = stdout st ++ lines)
  ∧ ∀ idx f, matched !! idx = Some f →
      lit "Processing " ++ Py.str_of_nat (S idx) ++ lit "/"
      ++ Py.str_of_nat (length matched) ++ lit ": " ++ OsPath.basename f
      ∈ stdout r.2.
Proof.
  intros Hgz%endswith_spec. cbn zeta.
  assert (∀ lines,
    let r := process_matches json_loads glob input_dir tp od pattern (printed st lines) in
    (∃ more, stdout r.2 = stdout st ++ more)
    ∧ ∀ idx f, glob (world st) input_dir pattern !! idx = Some f →
        progress_note (S idx) (length (glob (world st) input_dir pattern)) f
        ∈ stdout r.2) as Hmatches.
  { intros lines. cbn zeta. unfold process_matches, printed. run.
    destruct (glob (world st) input_dir pattern) as [|f files] eqn:Hg.
    - cbn [Py.truthy negb fst snd world stdout].
      split; [eexists; by rewrite <- app_assoc|]. intros idx f Hf. done.
    - cbn [Py.truthy negb world stdout].
      match goal with
      | |- context [process_loop _ _ _ ?n ?k ?l ?a ?s] =>
          destruct (process_loop_progress tp od n k l a s) as [[more Hmore] Hnotes]
      end.
      cbn zeta in *. cbn [stdout] in Hmore. split.
      + eexists. rewrite Hmore. by rewrite <- !app_assoc.
      + intros idx g Hg'. by apply (Hnotes idx g). }
  unfold process_directory.
  destruct (Py.endswith pattern json_gz); cbn [negb].
  { pose proof (Hmatches []) as H. rewrite printed_nil in H. exact H. }
  rewrite Hgz. cbn [negb]. run. apply (Hmatches [pattern_warning pattern]).
Qed.

End Progress.



Lemma every_archive_is_attempted_witness :
  ends_with (pattern limit_one_args) gz
  ∧ Glob.glob (world demo_state) (lit "logs") (lit "*.json.gz") !! 0%nat
    = Some (lit "logs/cut.json.gz")
  ∧ Glob.glob (world demo_state) (lit "logs") (lit "*.json.gz") !! 3%nat
    = Some (lit "logs/game.json.gz")
  ∧ lit "Processing 1/4: cut.json.gz" ∈ stdout batch_run.2
  ∧ lit "Processing 4/4: game.json.gz" ∈ stdout batch_run.2.
Proof.
  assert (ends_with (pattern limit_one_args) gz) as H
    by (apply endswith_spec; vm_compute; reflexivity).
  assert (Glob.glob (world demo_state) (lit "logs") (lit "*.json.gz") !! 0%nat
          = Some (lit "logs/cut.json.gz")) as H0 by (vm_compute; reflexivity).
  assert (Glob.glob (world demo_state) (lit "logs") (lit "*.json.gz") !! 3%nat
          = Some (lit "logs/game.json.gz")) as H3 by (vm_compute; reflexivity).
  do 3 (split; [assumption|]).
  destruct (every_archive_is_attempted Json.loads Glob.glob (lit "logs")
              (lit "index.example.html") None (lit "*.json.gz") demo_state H)
    as [_ Hnotes].
  split.
  - pose proof (Hnotes 0%nat _ H0) as Hn. vm_compute in Hn |- *. exact Hn.
  - pose proof (Hnotes 3%nat _ H3) as Hn. vm_compute in Hn |- *. exact Hn.
Defined.
